(** * Import of SOFA impulse responses (examples/Exp3_Import_SOFA.ipynb)

    A shallow embedding of the notebook that reads a SOFA container with
    netCDF4, extracts the two receiver matrices, the source positions and the
    sampling rate, closes the container, converts the angles to radians and
    colatitude, builds one [io.ArraySignal] per ear and saves both.

    The arithmetic of the array elements is a parameter of the embedding; it
    is instantiated with IEEE binary64 (primitive floats), which is what
    numpy computes with. *)

From Stdlib Require Import ZArith Floats.
From stdpp Require Import gmap strings list fin_maps.

Local Open Scope string_scope.
Local Open Scope list_scope.
Local Open Scope nat_scope.

(** ** Numbers *)

(** The operations the notebook applies to array elements: [/], [*], [-],
    integer literals and [np.pi]. *)
Class Arith (F : Type) := {
  adiv : F -> F -> F;
  amul : F -> F -> F;
  asub : F -> F -> F;
  of_Z : Z -> F;
  np_pi : F
}.

(** binary64: [np.pi] is the double nearest to pi, 0x1.921fb54442d18p+1. *)
#[export] Instance Arith_float : Arith float := {
  adiv := PrimFloat.div;
  amul := PrimFloat.mul;
  asub := PrimFloat.sub;
  of_Z := fun z => match z with
                   | Z.neg _ => PrimFloat.opp (PrimFloat.of_uint63 (Uint63.of_Z (Z.opp z)))
                   | _ => PrimFloat.of_uint63 (Uint63.of_Z z)
                   end;
  np_pi := 0x1.921fb54442d18p+1%float
}.

(** ** Exceptions and results *)

(** The exceptions a run can end with.  [IOError] is what opening a missing
    file raises, [IndexError] an absent variable or an index out of bounds,
    [ValueError] an unequal [np.hsplit] or a failed unpacking, [RuntimeError]
    a use of a closed container, [TypeError] an operation on an object of the
    wrong kind.  [SchemaError] is the error kind of the specification; no
    operation of the notebook raises it. *)
Inductive exn : Set :=
  | IOError | SchemaError | IndexError | ValueError | RuntimeError | TypeError.

#[export] Instance exn_eq_dec : EqDecision exn.
Proof. solve_decision. Defined.

Inductive result (A : Type) : Type :=
  | Ok (a : A)
  | Raise (e : exn).
Arguments Ok {A} a.
Arguments Raise {A} e.

(** ** numpy arrays *)

Section Ndarray.
Context {F : Type}.

(** An array is its shape and its elements in C (row-major) order; a
    numpy scalar is the array of shape []. *)
Record ndarray : Type := mk_ndarray { shape : list nat; data : list F }.

Definition size_of (s : list nat) : nat := foldr Nat.mul 1 s.

Definition wf_ndarray (a : ndarray) : Prop :=
  length (data a) = size_of (shape a).

#[export] Instance wf_ndarray_dec (a : ndarray) : Decision (wf_ndarray a) :=
  Nat.eq_dec (length (data a)) (size_of (shape a)).

Definition ndim (a : ndarray) : nat := length (shape a).

(** One position of a subscript: an integer or [:]. *)
Inductive index : Set := Idx (i : nat) | All.

(** Shape of [a[ix]]; missing trailing positions stand for [:].  An
    integer beyond its axis, or more positions than axes, is an
    [IndexError], whatever the other axes are. *)
Fixpoint index_shape (ix : list index) (s : list nat) : result (list nat) :=
  match ix, s with
  | [], _ => Ok s
  | _ :: _, [] => Raise IndexError
  | Idx i :: ix', d :: s' =>
      if Nat.ltb i d then index_shape ix' s' else Raise IndexError
  | All :: ix', d :: s' =>
      match index_shape ix' s' with
      | Ok r => Ok (d :: r)
      | Raise e => Raise e
      end
  end.

(** [chunks k n l]: the first [k] consecutive blocks of [n] elements. *)
Fixpoint chunks (k n : nat) (l : list F) : list (list F) :=
  match k with
  | 0 => []
  | S k' => take n l :: chunks k' n (drop n l)
  end.

(** Elements of [a[ix]], in C order. *)
Fixpoint index_data (ix : list index) (s : list nat) (l : list F) : list F :=
  match ix, s with
  | Idx i :: ix', d :: s' =>
      index_data ix' s' (take (size_of s') (drop (i * size_of s') l))
  | All :: ix', d :: s' =>
      concat (map (index_data ix' s') (chunks d (size_of s') l))
  | _, _ => l
  end.

Definition getitem (a : ndarray) (ix : list index) : result ndarray :=
  match index_shape ix (shape a) with
  | Ok s => Ok (mk_ndarray s (index_data ix (shape a) (data a)))
  | Raise e => Raise e
  end.

(** [np.squeeze]: the axes of length one are removed, the elements stay. *)
Definition squeeze_shape (s : list nat) : list nat :=
  filter (fun d => d ≠ 1) s.

Definition np_squeeze (a : ndarray) : ndarray :=
  mk_ndarray (squeeze_shape (shape a)) (data a).

(** [np.hsplit(a, sections)]: [sections] equal pieces along the second
    axis, or along the only axis of a one-dimensional array.  A scalar, or
    an axis that [sections] does not divide, is a [ValueError]. *)
Definition hsplit_piece (sections : nat) (s : list nat) (l : list F)
    (j : nat) : ndarray :=
  match s with
  | [] => mk_ndarray [] l
  | [d0] =>
      let w := d0 `div` sections in
      mk_ndarray [w] (take w (drop (j * w) l))
  | d0 :: d1 :: rest =>
      let w := (d1 `div` sections) * size_of rest in
      mk_ndarray (d0 :: d1 `div` sections :: rest)
        (concat (map (fun row => take w (drop (j * w) row))
                     (chunks d0 (d1 * size_of rest) l)))
  end.

Definition split_axis (s : list nat) : option nat :=
  match s with
  | [] => None
  | [d0] => Some d0
  | _ :: d1 :: _ => Some d1
  end.

Definition np_hsplit (a : ndarray) (sections : nat) : result (list ndarray) :=
  match split_axis (shape a) with
  | None => Raise ValueError
  | Some d =>
      if Nat.eqb (d `mod` sections) 0
      then Ok (map (hsplit_piece sections (shape a) (data a)) (seq 0 sections))
      else Raise ValueError
  end.

(** [np.asarray] of a Python list of arrays, which [np.squeeze] applies to
    a list argument: the arrays are stacked along a new first axis; arrays
    of different shapes do not stack. *)
Definition np_stack (l : list ndarray) : result ndarray :=
  match l with
  | [] => Ok (mk_ndarray [0] [])
  | a :: _ =>
      if forallb (fun b => bool_decide (shape b = shape a)) l
      then Ok (mk_ndarray (length l :: shape a) (concat (map data l)))
      else Raise ValueError
  end.

(** [x, y, z = a]: iteration over the first axis, which must have length
    three; a scalar cannot be iterated. *)
Definition item (a : ndarray) (i : nat) : ndarray :=
  mk_ndarray (tail (shape a))
    (take (size_of (tail (shape a))) (drop (i * size_of (tail (shape a))) (data a))).

Definition unpack3 (a : ndarray) : result (ndarray * ndarray * ndarray) :=
  match shape a with
  | [] => Raise TypeError
  | d :: _ =>
      if Nat.eqb d 3 then Ok (item a 0, item a 1, item a 2)
      else Raise ValueError
  end.

(** Arithmetic of an array with a Python scalar, element by element. *)
Context `{Arith F}.

Definition div_scalar (a : ndarray) (c : F) : ndarray :=
  mk_ndarray (shape a) (map (fun x => adiv x c) (data a)).

Definition mul_scalar (a : ndarray) (c : F) : ndarray :=
  mk_ndarray (shape a) (map (fun x => amul x c) (data a)).

Definition scalar_sub (c : F) (a : ndarray) : ndarray :=
  mk_ndarray (shape a) (map (fun x => asub c x) (data a)).

(** Difference of two arrays of one shape (the only case the notebook
    has: two subscripts of the same form on one variable). *)
Definition sub_arrays (a b : ndarray) : result ndarray :=
  if bool_decide (shape a = shape b)
  then Ok (mk_ndarray (shape a) (zip_with asub (data a) (data b)))
  else Raise ValueError.

End Ndarray.
Arguments ndarray F : clear implicits.

(** ** Strings *)

(** [s.endswith(suffix)] *)
Fixpoint endswith (s suffix : string) : bool :=
  String.eqb s suffix ||
  match s with
  | EmptyString => false
  | String _ s' => endswith s' suffix
  end.

(** ** The Python object store and the notebook's effects *)

Section Store.
Context {F : Type} `{Arith F}.

(** A SOFA file as netCDF4 presents it: named variables. *)
Record Container : Type := mk_Container {
  variables : gmap string (ndarray F)
}.

(** Objects are identified by their position in the store (Python's
    [id]); nothing is ever freed. *)
Definition loc := nat.

(** Modelled from the spec: the classes [io.TimeSignal], [io.SphericalGrid]
    and [io.ArraySignal] of module sound_field_analysis.io, which is not
    among the sources.  Per the specification they are pure constructions:
    a Time Signal holds a matrix and a sampling rate, a Spherical Grid the
    three coordinate sequences, an Array Signal one Time Signal and one
    Spherical Grid; each field holds the reference it was built with. *)
Inductive obj : Type :=
  | ONdarray (a : ndarray F)
  | ODataset (c : Container) (is_open : bool)
  | OTimeSignal (signal fs : loc)
  | OSphericalGrid (azimuth colatitude radius : loc)
  | OArraySignal (signal grid : loc).

(** What [np.save] writes for an Array Signal: the arrays reachable from
    it, by value. *)
Record ArraySignalFile : Type := mk_ArraySignalFile {
  file_signal : ndarray F;
  file_fs : ndarray F;
  file_azimuth : ndarray F;
  file_colatitude : ndarray F;
  file_radius : ndarray F
}.

Record state : Type := mk_state {
  heap : list obj;                       (* live Python objects *)
  files : gmap string Container;         (* SOFA files that can be opened *)
  disk : list (string * ArraySignalFile) (* files written, latest first *)
}.

(** A kernel that has run nothing yet. *)
Definition fresh_kernel (sofa_files : gmap string Container) : state :=
  mk_state [] sofa_files [].

(** Computations that read and update the state and may raise; the state
    reached when an exception is raised is kept. *)
Definition M (A : Type) : Type := state -> result A * state.

#[export] Instance M_ret : MRet M := fun A a st => (Ok a, st).

#[export] Instance M_bind : MBind M := fun A B k m st =>
  match m st with
  | (Ok a, st') => k a st'
  | (Raise e, st') => (Raise e, st')
  end.

Definition raise {A} (e : exn) : M A := fun st => (Raise e, st).

Definition lift {A} (r : result A) : M A := fun st => (r, st).

(** A new object takes the next position of the store. *)
Definition push (o : obj) (st : state) : state :=
  mk_state (heap st ++ [o]) (files st) (disk st).

Definition alloc (o : obj) : M loc :=
  fun st => (Ok (length (heap st)), push o st).

Definition deref (l : loc) : M obj :=
  fun st =>
    match heap st !! l with
    | Some o => (Ok o, st)
    | None => (Raise RuntimeError, st)
    end.

Definition store (l : loc) (o : obj) : M unit :=
  fun st => (Ok tt, mk_state (<[l := o]> (heap st)) (files st) (disk st)).

End Store.
Arguments Container F : clear implicits.
Arguments obj F : clear implicits.
Arguments ArraySignalFile F : clear implicits.
Arguments state F : clear implicits.
Arguments M F A : clear implicits.


(** ** The operations the notebook calls *)

Section Operations.
Context {F : Type} `{Arith F}.

Definition get_ndarray (l : loc) : M F (ndarray F) :=
  o ← deref l;
  match o with
  | ONdarray a => mret a
  | _ => raise TypeError
  end.

(** [Dataset(file, 'r', format='NETCDF4')]: a new open handle. *)
Definition Dataset (file : string) : M F loc :=
  fun st =>
    match files st !! file with
    | Some c => alloc (ODataset c true) st
    | None => (Raise IOError, st)
    end.

(** [sofa_file[name]]: the named variable of an open container. *)
Definition getvar (ds : loc) (name : string) : M F (ndarray F) :=
  o ← deref ds;
  match o with
  | ODataset c true =>
      match variables c !! name with
      | Some v => mret v
      | None => raise IndexError
      end
  | ODataset c false => raise RuntimeError
  | _ => raise TypeError
  end.

(** [variable[ix]]: the selected elements are read into a new array. *)
Definition var_getitem (v : ndarray F) (ix : list index) : M F loc :=
  a ← lift (getitem v ix); alloc (ONdarray a).

(** [a[ix]] on an array of the store. *)
Definition array_getitem (l : loc) (ix : list index) : M F loc :=
  a ← get_ndarray l; b ← lift (getitem a ix); alloc (ONdarray b).

(** [np.squeeze(a)]: a new array object. *)
Definition squeeze (l : loc) : M F loc :=
  a ← get_ndarray l; alloc (ONdarray (np_squeeze a)).

(** [np.hsplit(a, n)]: a Python list of new arrays. *)
Definition hsplit (l : loc) (n : nat) : M F (list loc) :=
  a ← get_ndarray l;
  pieces ← lift (np_hsplit a n);
  mapM (fun p => alloc (ONdarray p)) pieces.

(** [np.squeeze(list)]: the list is made an array first. *)
Definition squeeze_list (ls : list loc) : M F loc :=
  arrays ← mapM get_ndarray ls;
  a ← lift (np_stack arrays);
  l ← alloc (ONdarray a);
  squeeze l.

(** [x, y, z = a] *)
Definition unpack (l : loc) : M F (loc * loc * loc) :=
  a ← get_ndarray l;
  '(x, y, z) ← lift (unpack3 a);
  lx ← alloc (ONdarray x);
  ly ← alloc (ONdarray y);
  lz ← alloc (ONdarray z);
  mret (lx, ly, lz).

(** [a / c], [a * c] and [c - a] with a Python float [c]: each result is a
    new array, the operand is only read. *)
Definition truediv (l : loc) (c : F) : M F loc :=
  a ← get_ndarray l; alloc (ONdarray (div_scalar a c)).

Definition mul (l : loc) (c : F) : M F loc :=
  a ← get_ndarray l; alloc (ONdarray (mul_scalar a c)).

Definition rsub (c : F) (l : loc) : M F loc :=
  a ← get_ndarray l; alloc (ONdarray (scalar_sub c a)).

(** [a - b] *)
Definition sub (l1 l2 : loc) : M F loc :=
  a ← get_ndarray l1;
  b ← get_ndarray l2;
  c ← lift (sub_arrays a b);
  alloc (ONdarray c).

Definition TimeSignal (signal fs : loc) : M F loc :=
  alloc (OTimeSignal signal fs).

Definition SphericalGrid (azimuth colatitude radius : loc) : M F loc :=
  alloc (OSphericalGrid azimuth colatitude radius).

Definition ArraySignal (signal grid : loc) : M F loc :=
  alloc (OArraySignal signal grid).

(** [sofa_file.close()] *)
Definition close (ds : loc) : M F unit :=
  o ← deref ds;
  match o with
  | ODataset c true => store ds (ODataset c false)
  | ODataset c false => raise RuntimeError
  | _ => raise TypeError
  end.

Definition array_at (h : list (obj F)) (l : loc) : option (ndarray F) :=
  match h !! l with
  | Some (ONdarray a) => Some a
  | _ => None
  end.

(** The arrays an Array Signal object reaches. *)
Definition snapshot (h : list (obj F)) (l : loc) : option (ArraySignalFile F) :=
  match h !! l with
  | Some (OArraySignal s g) =>
      match h !! s, h !! g with
      | Some (OTimeSignal sig fs), Some (OSphericalGrid az co r) =>
          sig' ← array_at h sig;
          fs' ← array_at h fs;
          az' ← array_at h az;
          co' ← array_at h co;
          r' ← array_at h r;
          Some (mk_ArraySignalFile sig' fs' az' co' r')
      | _, _ => None
      end
  | _ => None
  end.

(** The Spherical Grid objects of a store, by position. *)
Definition is_SphericalGrid (o : obj F) : bool :=
  match o with
  | OSphericalGrid _ _ _ => true
  | _ => false
  end.

Definition grid_locs (h : list (obj F)) : list loc :=
  List.filter
    (fun l => match h !! l with
              | Some o => is_SphericalGrid o
              | None => false
              end)
    (seq 0 (length h)).

(** The open container handles of a store. *)
Definition is_open_handle (o : obj F) : bool :=
  match o with
  | ODataset _ true => true
  | _ => false
  end.

Definition open_handles (h : list (obj F)) : list loc :=
  List.filter
    (fun l => match h !! l with
              | Some o => is_open_handle o
              | None => false
              end)
    (seq 0 (length h)).

(** [np.save(file, obj)]: the extension [.npy] is appended unless the name
    already ends with it. *)
Definition npy_name (file : string) : string :=
  if endswith file ".npy" then file else file +:+ ".npy".

Definition np_save (file : string) (l : loc) : M F unit :=
  fun st =>
    match snapshot (heap st) l with
    | Some f =>
        (Ok tt, mk_state (heap st) (files st) ((npy_name file, f) :: disk st))
    | None => (Raise TypeError, st)
    end.

End Operations.

(** ** The notebook *)

Section Notebook.
Context {F : Type} `{Arith F}.

(** The names the notebook binds, as references into the store.  The
    radius array, [R] in the notebook, is [Rad] here. *)
Record Namespace : Set := mk_Namespace {
  sofa_file : loc;
  HRIRs_l : loc;
  HRIRs_r : loc;
  Az : loc;
  El : loc;
  Rad : loc;
  fs : loc;
  azimuth : loc;
  colatitude : loc;
  hrir_full_l : loc;
  hrir_full_r : loc
}.

(** [np.squeeze(sofa_file['Data.IR'][:,r,:])] *)
Definition extractReceiverMatrix (sofa_file : loc) (r : nat) : M F loc :=
  ir ← getvar sofa_file "Data.IR";
  slice ← var_getitem ir [All; Idx r; All];
  squeeze slice.

(** [np.squeeze(np.hsplit(sofa_file['SourcePosition'][:], 3))], unpacked
    into three names. *)
Definition extractSourcePosition (sofa_file : loc) : M F (loc * loc * loc) :=
  sp ← getvar sofa_file "SourcePosition";
  whole ← var_getitem sp [All];
  pieces ← hsplit whole 3;
  stacked ← squeeze_list pieces;
  unpack stacked.

(** [sofa_file['Data.SamplingRate'][:][0]] *)
Definition extractSamplingRate (sofa_file : loc) : M F loc :=
  sr ← getvar sofa_file "Data.SamplingRate";
  whole ← var_getitem sr [All];
  array_getitem whole [Idx 0].

(** Second code cell: the container is opened. *)
Definition cell_open (path filename : string) : M F loc :=
  Dataset (path +:+ filename +:+ ".sofa").

(** Third code cell: the printed summary.  The text is not kept, the
    accesses it makes are. *)
Definition cell_print (sofa_file : loc) : M F unit :=
  _ ← getvar sofa_file "SourcePosition";
  _ ← getvar sofa_file "Data.IR";
  rp1 ← getvar sofa_file "ReceiverPosition";
  right ← var_getitem rp1 [Idx 1; Idx 1];
  rp0 ← getvar sofa_file "ReceiverPosition";
  left ← var_getitem rp0 [Idx 0; Idx 1];
  _ ← sub right left;
  mret tt.

(** Fourth code cell: extraction. *)
Definition cell_extract (sofa_file : loc)
    : M F (loc * loc * (loc * loc * loc) * loc) :=
  HRIRs_l ← extractReceiverMatrix sofa_file 0;
  HRIRs_r ← extractReceiverMatrix sofa_file 1;
  pos ← extractSourcePosition sofa_file;
  fs ← extractSamplingRate sofa_file;
  mret (HRIRs_l, HRIRs_r, pos, fs).

(** Sixth code cell, first two lines:
    [azimuth = Az / 180*np.pi] and
    [colatitude = np.pi / 2 - El / 180 * np.pi]. *)
Definition convert_azimuth (Az : loc) : M F loc :=
  t ← truediv Az (of_Z 180);
  mul t np_pi.

Definition convert_colatitude (El : loc) : M F loc :=
  let half_pi := adiv np_pi (of_Z 2) in
  t ← truediv El (of_Z 180);
  u ← mul t np_pi;
  rsub half_pi u.

(** Sixth code cell, last two lines: one Array Signal per ear. *)
Definition assemble (HRIRs fs azimuth colatitude R : loc) : M F loc :=
  ts ← TimeSignal HRIRs fs;
  grid ← SphericalGrid azimuth colatitude R;
  ArraySignal ts grid.

(** Sixth code cell. *)
Definition cell_convert (HRIRs_l HRIRs_r Az El R fs : loc)
    : M F (loc * loc * loc * loc) :=
  azimuth ← convert_azimuth Az;
  colatitude ← convert_colatitude El;
  hrir_full_l ← assemble HRIRs_l fs azimuth colatitude R;
  hrir_full_r ← assemble HRIRs_r fs azimuth colatitude R;
  mret (azimuth, colatitude, hrir_full_l, hrir_full_r).

(** Seventh code cell. *)
Definition cell_save (filename : string) (hrir_full_l hrir_full_r : loc)
    : M F unit :=
  np_save (filename +:+ "_L") hrir_full_l;;
  np_save (filename +:+ "_R") hrir_full_r.

(** The code cells in order; an exception ends the run where it is
    raised, as Run All does. *)
Definition run (path filename : string) : M F Namespace :=
  sofa_file ← cell_open path filename;
  cell_print sofa_file;;
  '(HRIRs_l, HRIRs_r, (Az, El, R), fs) ← cell_extract sofa_file;
  close sofa_file;;
  '(azimuth, colatitude, hrir_full_l, hrir_full_r) ←
    cell_convert HRIRs_l HRIRs_r Az El R fs;
  cell_save filename hrir_full_l hrir_full_r;;
  mret (mk_Namespace sofa_file HRIRs_l HRIRs_r Az El R fs
          azimuth colatitude hrir_full_l hrir_full_r).

(** The notebook with the names it assigns in its second cell. *)
Definition notebook : M F Namespace := run "sofa/" "mit_kemar_large_pinna".

(** *** The arrays the extraction computes

    Named here so that the states a run goes through can be written down:
    the array read by [ir[:,r,:]], the array read by [sp[:]], its three
    [np.hsplit] pieces, their stack, and the three items of the squeezed
    stack. *)
Definition receiver_slice (ir : ndarray F) (r : nat) : ndarray F :=
  mk_ndarray
    (match shape ir with
     | d0 :: _ :: s => d0 :: s
     | s => s
     end)
    (index_data [All; Idx r; All] (shape ir) (data ir)).

Definition source_whole (sp : ndarray F) : ndarray F :=
  mk_ndarray (shape sp) (index_data [All] (shape sp) (data sp)).

Definition source_piece (sp : ndarray F) (j : nat) : ndarray F :=
  hsplit_piece 3 (shape sp) (data (source_whole sp)) j.

Definition source_stacked (sp : ndarray F) : ndarray F :=
  mk_ndarray (3 :: shape (source_piece sp 0))
    (concat (map data [source_piece sp 0; source_piece sp 1; source_piece sp 2])).

Definition source_coordinate (sp : ndarray F) (j : nat) : ndarray F :=
  item (np_squeeze (source_stacked sp)) j.

Definition sampling_rate (sr : ndarray F) : ndarray F :=
  mk_ndarray [] (index_data [Idx 0] (shape sr) (index_data [All] (shape sr) (data sr))).

Definition ear_position (rp : ndarray F) (k : nat) : ndarray F :=
  mk_ndarray (drop 2 (shape rp))
    (index_data [Idx k; Idx 1] (shape rp) (data rp)).

Definition ear_distance (rp : ndarray F) : ndarray F :=
  mk_ndarray (drop 2 (shape rp))
    (zip_with asub (data (ear_position rp 1)) (data (ear_position rp 0))).

(** The arithmetic of the sixth cell on one array. *)
Definition to_azimuth (a : ndarray F) : ndarray F :=
  mul_scalar (div_scalar a (of_Z 180)) np_pi.

Definition to_colatitude (a : ndarray F) : ndarray F :=
  scalar_sub (adiv np_pi (of_Z 2)) (mul_scalar (div_scalar a (of_Z 180)) np_pi).

(** *** The state a complete run ends in

    The namespace, the store and the saved files of a run that raises
    nothing, written from the four variables the notebook reads. *)
Definition namespace_after_run : Namespace :=
  mk_Namespace 0 5 7 14 15 16 18 20 23 26 29.

Definition heap_after_run (c : Container F) (rp sp ir sr : ndarray F)
    : list (obj F) :=
  [ ODataset c false;
    ONdarray (ear_position rp 1);
    ONdarray (ear_position rp 0);
    ONdarray (ear_distance rp);
    ONdarray (receiver_slice ir 0);
    ONdarray (np_squeeze (receiver_slice ir 0));
    ONdarray (receiver_slice ir 1);
    ONdarray (np_squeeze (receiver_slice ir 1));
    ONdarray (source_whole sp);
    ONdarray (source_piece sp 0);
    ONdarray (source_piece sp 1);
    ONdarray (source_piece sp 2);
    ONdarray (source_stacked sp);
    ONdarray (np_squeeze (source_stacked sp));
    ONdarray (source_coordinate sp 0);
    ONdarray (source_coordinate sp 1);
    ONdarray (source_coordinate sp 2);
    ONdarray (mk_ndarray (shape sr) (index_data [All] (shape sr) (data sr)));
    ONdarray (sampling_rate sr);
    ONdarray (div_scalar (source_coordinate sp 0) (of_Z 180));
    ONdarray (to_azimuth (source_coordinate sp 0));
    ONdarray (div_scalar (source_coordinate sp 1) (of_Z 180));
    ONdarray (mul_scalar (div_scalar (source_coordinate sp 1) (of_Z 180)) np_pi);
    ONdarray (to_colatitude (source_coordinate sp 1));
    OTimeSignal 5 18;
    OSphericalGrid 20 23 16;
    OArraySignal 24 25;
    OTimeSignal 7 18;
    OSphericalGrid 20 23 16;
    OArraySignal 27 28 ].

Definition saved_signal (sp ir sr : ndarray F) (r : nat) : ArraySignalFile F :=
  mk_ArraySignalFile
    (np_squeeze (receiver_slice ir r))
    (sampling_rate sr)
    (to_azimuth (source_coordinate sp 0))
    (to_colatitude (source_coordinate sp 1))
    (source_coordinate sp 2).

End Notebook.

(** ** Containers of the SOFA layout *)

(** The dimension sizes of a container, under the names of the
    specification's Dimension Set: I, C, R, E, N and M. *)
Record DimensionSet : Set := mk_DimensionSet {
  ListenerCount : nat;
  ComponentCount : nat;
  ReceiverCount : nat;
  EmitterCount : nat;
  SampleLength : nat;
  MeasurementCount : nat
}.

Section Layout.
Context {F : Type}.

(** The container has the named variable with the given shape and as many
    elements as the shape says. *)
Definition has_variable (c : Container F) (name : string) (s : list nat) : bool :=
  match variables c !! name with
  | Some a => bool_decide (shape a = s) && bool_decide (wf_ndarray a)
  | None => false
  end.

(** The required variables, declared over the dimensions as in the header
    the notebook prints: ListenerPosition(I,C), ReceiverPosition(R,C,I),
    SourcePosition(M,C), EmitterPosition(E,C,I), Data.IR(M,R,N) and
    Data.SamplingRate(I). *)
Definition sofa_layout (d : DimensionSet) (c : Container F) : bool :=
  has_variable c "ListenerPosition" [ListenerCount d; ComponentCount d]
  && has_variable c "ReceiverPosition"
       [ReceiverCount d; ComponentCount d; ListenerCount d]
  && has_variable c "SourcePosition" [MeasurementCount d; ComponentCount d]
  && has_variable c "EmitterPosition"
       [EmitterCount d; ComponentCount d; ListenerCount d]
  && has_variable c "Data.IR"
       [MeasurementCount d; ReceiverCount d; SampleLength d]
  && has_variable c "Data.SamplingRate" [ListenerCount d].

(** Modelled from the spec: the conditions of the Dimension Validator
    (single listener, single emitter, two or more receivers, at least one
    sample and one measurement).  The notebook has no such step; the
    predicate only says which containers a statement is about. *)
Definition validator_invariants (d : DimensionSet) : bool :=
  Nat.eqb (ListenerCount d) 1
  && Nat.eqb (EmitterCount d) 1
  && Nat.leb 2 (ReceiverCount d)
  && Nat.leb 1 (SampleLength d)
  && Nat.leb 1 (MeasurementCount d).

(** A valid input: the layout, the validator's conditions and three
    components per position. *)
Definition valid_input (d : DimensionSet) (c : Container F) : bool :=
  sofa_layout d c && validator_invariants d && Nat.eqb (ComponentCount d) 3.

End Layout.


(** ** Example containers *)

Section Examples.
Context {F : Type}.

(** A container of the SOFA layout, from the elements of its variables. *)
Definition make_container (d : DimensionSet) (lp rp sp ep ir sr : list F)
    : Container F :=
  mk_Container (list_to_map
    [ ("ListenerPosition",
       mk_ndarray [ListenerCount d; ComponentCount d] lp);
      ("ReceiverPosition",
       mk_ndarray [ReceiverCount d; ComponentCount d; ListenerCount d] rp);
      ("SourcePosition",
       mk_ndarray [MeasurementCount d; ComponentCount d] sp);
      ("EmitterPosition",
       mk_ndarray [EmitterCount d; ComponentCount d; ListenerCount d] ep);
      ("Data.IR",
       mk_ndarray [MeasurementCount d; ReceiverCount d; SampleLength d] ir);
      ("Data.SamplingRate", mk_ndarray [ListenerCount d] sr) ]).

(** The same with every variable but SourcePosition filled with one
    value. *)
Definition filled_container (d : DimensionSet) (x : F) (sp : list F)
    : Container F :=
  make_container d
    (replicate (ListenerCount d * ComponentCount d) x)
    (replicate (ReceiverCount d * ComponentCount d * ListenerCount d) x)
    sp
    (replicate (EmitterCount d * ComponentCount d * ListenerCount d) x)
    (replicate (MeasurementCount d * ReceiverCount d * SampleLength d) x)
    (replicate (ListenerCount d) x).

(** A kernel whose working directory holds the container under the name
    the notebook opens. *)
Definition kernel_with (c : Container F) : state F :=
  fresh_kernel {[ "sofa/mit_kemar_large_pinna.sofa" := c ]}.

End Examples.

(** Two measurements of three samples for two ears (I=1, C=3, R=2, E=1,
    N=3, M=2), in binary64. *)
Definition small_dims : DimensionSet := mk_DimensionSet 1 3 2 1 3 2.

Definition small_hrir : Container float :=
  make_container small_dims
    [0; 0; 0]%float
    [0; 0.125; 0; 0; -0.125; 0]%float
    [90; 0; 1.5; 360; -90; 1.25]%float
    [0; 0; 0]%float
    [1; 2; 3; 4; 5; 6; 7; 8; 9; 10; 11; 12]%float
    [44100]%float.

(** Variations of it, one dimension changed each. *)
Definition two_listeners_dims : DimensionSet := mk_DimensionSet 2 3 2 1 3 2.
Definition two_listeners : Container float :=
  filled_container two_listeners_dims 1%float [90; 0; 1.5; 360; -90; 1.25]%float.

Definition one_receiver_dims : DimensionSet := mk_DimensionSet 1 3 1 1 3 2.
Definition one_receiver : Container float :=
  filled_container one_receiver_dims 1%float [90; 0; 1.5; 360; -90; 1.25]%float.

Definition three_receivers_dims : DimensionSet := mk_DimensionSet 1 3 3 1 3 2.
Definition three_receivers : Container float :=
  filled_container three_receivers_dims 1%float [90; 0; 1.5; 360; -90; 1.25]%float.

Definition one_measurement_dims : DimensionSet := mk_DimensionSet 1 3 2 1 3 1.
Definition one_measurement : Container float :=
  filled_container one_measurement_dims 1%float [90; 0; 1.5]%float.

Definition six_components_dims : DimensionSet := mk_DimensionSet 1 6 2 1 3 2.
Definition six_components : Container float :=
  filled_container six_components_dims 1%float (replicate 12 1%float).

Definition four_components_dims : DimensionSet := mk_DimensionSet 1 4 2 1 3 2.
Definition four_components : Container float :=
  filled_container four_components_dims 1%float (replicate 8 1%float).

(** A store as extraction leaves it for two measurements: azimuth,
    elevation and radius, the two receiver matrices and the sampling rate. *)
Definition extracted_state : state float :=
  mk_state
    [ ONdarray (mk_ndarray [2] [90; 360]%float);
      ONdarray (mk_ndarray [2] [0; -90]%float);
      ONdarray (mk_ndarray [2] [1.5; 1.25]%float);
      ONdarray (mk_ndarray [2; 3] [1; 2; 3; 7; 8; 9]%float);
      ONdarray (mk_ndarray [2; 3] [4; 5; 6; 10; 11; 12]%float);
      ONdarray (mk_ndarray [] [44100]%float) ]
    ∅ [].


(** A store with two position arrays whose values lie outside the usual
    ranges: azimuths of 360 and -180 degrees, elevations of -90 and 180
    degrees. *)
Definition out_of_range_state : state float :=
  mk_state
    [ ONdarray (mk_ndarray [2] [360; -180]%float);
      ONdarray (mk_ndarray [2] [-90; 180]%float) ]
    ∅ [].

(** Two more variations of the small container: no listener (and so no
    sampling rate), and no measurement. *)
Definition no_listener_dims : DimensionSet := mk_DimensionSet 0 3 2 1 3 2.
Definition no_listener : Container float :=
  filled_container no_listener_dims 1%float [90; 0; 1.5; 360; -90; 1.25]%float.


(** * Properties *)

(** ** Running the operations *)

Section Stepping.
Context {F : Type} `{Arith F}.
Implicit Types (st : state F) (o : obj F) (a v : ndarray F) (l ds : loc).

Lemma run_bind {A B} (m : M F A) (k : A -> M F B) st :
  (m ≫= k) st =
  match m st with
  | (Ok x, st') => k x st'
  | (Raise e, st') => (Raise e, st')
  end.
Proof. reflexivity. Qed.

Lemma run_ret {A} (x : A) st : (mret x : M F A) st = (Ok x, st).
Proof. reflexivity. Qed.

Lemma heap_push o st : heap (push o st) = heap st ++ [o].
Proof. reflexivity. Qed.

Lemma length_heap_push o st : length (heap (push o st)) = S (length (heap st)).
Proof. rewrite heap_push, length_app. simpl. lia. Qed.

Lemma lookup_push_new o st l :
  l = length (heap st) -> heap (push o st) !! l = Some o.
Proof. intros ->. rewrite heap_push. by apply list_lookup_middle. Qed.

Lemma lookup_push_old o o' st l :
  heap st !! l = Some o' -> heap (push o st) !! l = Some o'.
Proof. intros Hl. rewrite heap_push. by apply lookup_app_l_Some. Qed.

Lemma get_ndarray_ok st l a :
  heap st !! l = Some (ONdarray a) -> get_ndarray l st = (Ok a, st).
Proof. intros Hl. unfold get_ndarray, deref. rewrite run_bind, Hl. reflexivity. Qed.

Lemma getvar_ok st ds c name v :
  heap st !! ds = Some (ODataset c true) ->
  variables c !! name = Some v ->
  getvar ds name st = (Ok v, st).
Proof.
  intros Hds Hv. unfold getvar, deref. rewrite run_bind, Hds, Hv. reflexivity.
Qed.

Lemma getvar_missing st ds c name :
  heap st !! ds = Some (ODataset c true) ->
  variables c !! name = None ->
  getvar ds name st = (Raise IndexError, st).
Proof.
  intros Hds Hv. unfold getvar, deref. rewrite run_bind, Hds, Hv. reflexivity.
Qed.

Lemma var_getitem_ok st v ix s :
  index_shape ix (shape v) = Ok s ->
  var_getitem v ix st =
    (Ok (length (heap st)),
     push (ONdarray (mk_ndarray s (index_data ix (shape v) (data v)))) st).
Proof.
  intros Hs. unfold var_getitem, getitem, lift. rewrite run_bind, Hs. reflexivity.
Qed.

Lemma var_getitem_raise st v ix e :
  index_shape ix (shape v) = Raise e ->
  var_getitem v ix st = (Raise e, st).
Proof.
  intros Hs. unfold var_getitem, getitem, lift. rewrite run_bind, Hs. reflexivity.
Qed.

Lemma squeeze_ok st l a :
  heap st !! l = Some (ONdarray a) ->
  squeeze l st = (Ok (length (heap st)), push (ONdarray (np_squeeze a)) st).
Proof.
  intros Hl. unfold squeeze. rewrite run_bind, (get_ndarray_ok _ _ _ Hl). reflexivity.
Qed.
End Stepping.

(** ** Subscripts of the impulse-response variable *)

Section ReceiverSlice.
Context {F : Type}.
Implicit Types (l : list F) (M R N r m n : nat).

Lemma index_shape_receiver M R N r :
  r < R -> index_shape [All; Idx r; All] [M; R; N] = Ok [M; N].
Proof.
  intros Hr. simpl. apply Nat.ltb_lt in Hr. rewrite Hr. reflexivity.
Qed.


Lemma concat_chunks k n l : concat (chunks k n l) = take (k * n) l.
Proof.
  revert l. induction k as [|k IH]; intros l; simpl.
  - by rewrite take_0.
  - rewrite IH. apply take_take_drop.
Qed.

Lemma map_id_chunks k n l :
  map (index_data [] []) (chunks k n l) = chunks k n l.
Proof. apply map_id. Qed.

(** One row of [a[:, r, :]]: the [N] elements at offset [r * N] of the
    row's block. *)
Lemma index_data_row R N r l :
  index_data [Idx r; All] [R; N] l = take N (drop (r * N) l).
Proof.
  simpl. rewrite map_id_chunks, concat_chunks.
  rewrite !Nat.mul_1_r. rewrite take_take. by rewrite Nat.min_id.
Qed.

Lemma index_data_receiver_unfold M R N r l :
  index_data [All; Idx r; All] [M; R; N] l =
  concat (map (fun row => take N (drop (r * N) row)) (chunks M (R * N) l)).
Proof.
  change (index_data [All; Idx r; All] [M; R; N] l)
    with (concat (map (index_data [Idx r; All] [R; N])
                      (chunks M (size_of [R; N]) l))).
  replace (size_of [R; N]) with (R * N) by (unfold size_of; simpl; lia).
  f_equal. apply map_ext. intros row. apply index_data_row.
Qed.

(** Element [(m, n)] of [a[:, r, :]] is element [(m, r, n)] of [a]. *)
Lemma index_data_receiver_lookup M R N r l m n :
  length l = M * (R * N) -> r < R -> m < M -> n < N ->
  index_data [All; Idx r; All] [M; R; N] l !! (m * N + n)
  = l !! ((m * R + r) * N + n).
Proof.
  intros Hlen Hr Hm Hn. rewrite index_data_receiver_unfold.
  revert l m Hlen Hm. induction M as [|M IH]; intros l m Hlen Hm; [lia|].
  simpl.
  assert (Hrow : length (take N (drop (r * N) (take (R * N) l))) = N).
  { rewrite length_take, length_drop, length_take. nia. }
  destruct m as [|m].
  - rewrite lookup_app_l by (rewrite Hrow; lia).
    rewrite lookup_take_lt by lia. rewrite lookup_drop.
    rewrite lookup_take_lt by nia. f_equal.
  - rewrite lookup_app_r by (rewrite Hrow; lia).
    rewrite Hrow. replace (S m * N + n - N) with (m * N + n) by lia.
    rewrite IH; [| rewrite length_drop; lia | lia].
    rewrite lookup_drop. f_equal. lia.
Qed.

Lemma index_data_receiver_length M R N r l :
  length l = M * (R * N) -> r < R ->
  length (index_data [All; Idx r; All] [M; R; N] l) = M * N.
Proof.
  intros Hlen Hr. rewrite index_data_receiver_unfold.
  revert l Hlen. induction M as [|M IH]; intros l Hlen; [reflexivity|].
  simpl. rewrite length_app, IH by (rewrite length_drop; lia).
  rewrite length_take, length_drop, length_take. nia.
Qed.
End ReceiverSlice.

(** ** Running the numpy operations *)

Ltac heap_lookup :=
  repeat rewrite length_heap_push;
  first
    [ eassumption
    | apply lookup_push_new; repeat rewrite length_heap_push; reflexivity
    | apply lookup_push_old; heap_lookup ].

Section SteppingArrays.
Context {F : Type} `{Arith F}.
Implicit Types (st : state F) (o : obj F) (a b p v : ndarray F) (l : loc).

Lemma alloc_ok st o : alloc o st = (Ok (length (heap st)), push o st).
Proof. reflexivity. Qed.

Lemma array_getitem_ok st l a ix s :
  heap st !! l = Some (ONdarray a) ->
  index_shape ix (shape a) = Ok s ->
  array_getitem l ix st =
    (Ok (length (heap st)),
     push (ONdarray (mk_ndarray s (index_data ix (shape a) (data a)))) st).
Proof.
  intros Hl Hs. unfold array_getitem, getitem, lift.
  rewrite run_bind, (get_ndarray_ok _ _ _ Hl), run_bind, Hs. reflexivity.
Qed.

Lemma array_getitem_raise st l a ix e :
  heap st !! l = Some (ONdarray a) ->
  index_shape ix (shape a) = Raise e ->
  array_getitem l ix st = (Raise e, st).
Proof.
  intros Hl Hs. unfold array_getitem, getitem, lift.
  rewrite run_bind, (get_ndarray_ok _ _ _ Hl), run_bind, Hs. reflexivity.
Qed.

Lemma hsplit_ok st l a p0 p1 p2 :
  heap st !! l = Some (ONdarray a) ->
  np_hsplit a 3 = Ok [p0; p1; p2] ->
  hsplit l 3 st =
    (Ok [length (heap st); S (length (heap st)); S (S (length (heap st)))],
     push (ONdarray p2) (push (ONdarray p1) (push (ONdarray p0) st))).
Proof.
  intros Hl Hs. unfold hsplit, lift.
  rewrite run_bind, (get_ndarray_ok _ _ _ Hl), run_bind, Hs.
  cbn [mapM]. repeat (rewrite ?run_bind, ?run_ret, ?alloc_ok).
  rewrite !length_heap_push. reflexivity.
Qed.

Lemma hsplit_raise st l a e :
  heap st !! l = Some (ONdarray a) ->
  np_hsplit a 3 = Raise e ->
  hsplit l 3 st = (Raise e, st).
Proof.
  intros Hl Hs. unfold hsplit, lift.
  rewrite run_bind, (get_ndarray_ok _ _ _ Hl), run_bind, Hs. reflexivity.
Qed.

Lemma squeeze_list_ok st l0 l1 l2 p0 p1 p2 a :
  heap st !! l0 = Some (ONdarray p0) ->
  heap st !! l1 = Some (ONdarray p1) ->
  heap st !! l2 = Some (ONdarray p2) ->
  np_stack [p0; p1; p2] = Ok a ->
  squeeze_list [l0; l1; l2] st =
    (Ok (S (length (heap st))),
     push (ONdarray (np_squeeze a)) (push (ONdarray a) st)).
Proof.
  intros H0 H1 H2 Hs. unfold squeeze_list, lift. cbn [mapM].
  rewrite !run_bind, (get_ndarray_ok _ _ _ H0).
  rewrite !run_bind, (get_ndarray_ok _ _ _ H1).
  rewrite !run_bind, (get_ndarray_ok _ _ _ H2).
  repeat (rewrite ?run_bind, ?run_ret). rewrite Hs, run_bind, alloc_ok.
  rewrite (squeeze_ok _ _ a) by heap_lookup.
  rewrite length_heap_push. reflexivity.
Qed.

Lemma unpack_ok st l a x y z :
  heap st !! l = Some (ONdarray a) ->
  unpack3 a = Ok (x, y, z) ->
  unpack l st =
    (Ok (length (heap st), S (length (heap st)), S (S (length (heap st)))),
     push (ONdarray z) (push (ONdarray y) (push (ONdarray x) st))).
Proof.
  intros Hl Hu. unfold unpack, lift.
  rewrite run_bind, (get_ndarray_ok _ _ _ Hl), run_bind, Hu.
  repeat (rewrite ?run_bind, ?run_ret, ?alloc_ok).
  rewrite !length_heap_push. reflexivity.
Qed.

Lemma truediv_ok st l a c :
  heap st !! l = Some (ONdarray a) ->
  truediv l c st = (Ok (length (heap st)), push (ONdarray (div_scalar a c)) st).
Proof.
  intros Hl. unfold truediv. rewrite run_bind, (get_ndarray_ok _ _ _ Hl). reflexivity.
Qed.

Lemma mul_ok st l a c :
  heap st !! l = Some (ONdarray a) ->
  mul l c st = (Ok (length (heap st)), push (ONdarray (mul_scalar a c)) st).
Proof.
  intros Hl. unfold mul. rewrite run_bind, (get_ndarray_ok _ _ _ Hl). reflexivity.
Qed.

Lemma rsub_ok st l a c :
  heap st !! l = Some (ONdarray a) ->
  rsub c l st = (Ok (length (heap st)), push (ONdarray (scalar_sub c a)) st).
Proof.
  intros Hl. unfold rsub. rewrite run_bind, (get_ndarray_ok _ _ _ Hl). reflexivity.
Qed.

Lemma sub_ok st l1 l2 a b :
  heap st !! l1 = Some (ONdarray a) ->
  heap st !! l2 = Some (ONdarray b) ->
  shape a = shape b ->
  sub l1 l2 st =
    (Ok (length (heap st)),
     push (ONdarray (mk_ndarray (shape a) (zip_with asub (data a) (data b)))) st).
Proof.
  intros H1 H2 Hs. unfold sub, sub_arrays, lift.
  rewrite run_bind, (get_ndarray_ok _ _ _ H1).
  rewrite run_bind, (get_ndarray_ok _ _ _ H2).
  rewrite run_bind, bool_decide_eq_true_2 by done. reflexivity.
Qed.

Lemma close_ok st ds c :
  heap st !! ds = Some (ODataset c true) ->
  close ds st =
    (Ok tt, mk_state (<[ds := ODataset c false]> (heap st)) (files st) (disk st)).
Proof.
  intros Hds. unfold close, deref. rewrite run_bind, Hds. reflexivity.
Qed.

Lemma Dataset_ok st file c :
  files st !! file = Some c ->
  Dataset file st = (Ok (length (heap st)), push (ODataset c true) st).
Proof. intros Hf. unfold Dataset. rewrite Hf. reflexivity. Qed.

Lemma Dataset_missing st file :
  files st !! file = None -> Dataset file st = (Raise IOError, st).
Proof. intros Hf. unfold Dataset. rewrite Hf. reflexivity. Qed.

End SteppingArrays.

(** ** The extraction cell, step by step *)

Section Extraction.
Context {F : Type} `{Arith F}.
Implicit Types (st : state F) (c : Container F) (ir sp sr : ndarray F).
Implicit Types (ds : loc) (M C R N I r : nat).

Lemma extractReceiverMatrix_ok st ds c ir M R N r :
  heap st !! ds = Some (ODataset c true) ->
  variables c !! "Data.IR" = Some ir ->
  shape ir = [M; R; N] ->
  r < R ->
  extractReceiverMatrix ds r st =
    (Ok (S (length (heap st))),
     push (ONdarray (np_squeeze (receiver_slice ir r)))
       (push (ONdarray (receiver_slice ir r)) st)).
Proof.
  intros Hds Hir Hs Hr. unfold extractReceiverMatrix.
  rewrite run_bind, (getvar_ok _ _ _ _ _ Hds Hir).
  rewrite run_bind, (var_getitem_ok _ _ _ [M; N])
    by (rewrite Hs; by apply index_shape_receiver).
  replace (mk_ndarray [M; N] (index_data [All; Idx r; All] (shape ir) (data ir)))
    with (receiver_slice ir r) by (unfold receiver_slice; by rewrite Hs).
  rewrite (squeeze_ok _ _ (receiver_slice ir r)) by heap_lookup.
  rewrite length_heap_push. reflexivity.
Qed.


Lemma np_hsplit_source sp M C :
  shape sp = [M; C] -> C `mod` 3 = 0 ->
  np_hsplit (source_whole sp) 3
  = Ok [source_piece sp 0; source_piece sp 1; source_piece sp 2].
Proof.
  intros Hs HC. unfold np_hsplit, source_piece. simpl shape.
  rewrite Hs. cbv beta iota delta [split_axis]. rewrite HC. reflexivity.
Qed.

Lemma np_hsplit_source_raise sp M C :
  shape sp = [M; C] -> C `mod` 3 <> 0 ->
  np_hsplit (source_whole sp) 3 = Raise ValueError.
Proof.
  intros Hs HC. unfold np_hsplit. simpl shape.
  rewrite Hs. cbv beta iota delta [split_axis].
  destruct (Nat.eqb_spec (C `mod` 3) 0); [lia | reflexivity].
Qed.

Lemma shape_source_piece sp M C j :
  shape sp = [M; C] -> shape (source_piece sp j) = [M; C `div` 3].
Proof. intros Hs. unfold source_piece. rewrite Hs. reflexivity. Qed.

Lemma np_stack_source sp M C :
  shape sp = [M; C] ->
  np_stack [source_piece sp 0; source_piece sp 1; source_piece sp 2]
  = Ok (source_stacked sp).
Proof.
  intros Hs. unfold np_stack. cbn [forallb].
  rewrite !(shape_source_piece _ M C) by done.
  rewrite bool_decide_eq_true_2 by done. cbn [andb length].
  unfold source_stacked. by rewrite (shape_source_piece _ M C).
Qed.

Lemma shape_squeeze_stacked sp M C :
  shape sp = [M; C] ->
  shape (np_squeeze (source_stacked sp)) = 3 :: squeeze_shape [M; C `div` 3].
Proof.
  intros Hs. unfold np_squeeze, source_stacked. cbn [shape].
  rewrite (shape_source_piece _ M C) by done. reflexivity.
Qed.

Lemma unpack3_source sp M C :
  shape sp = [M; C] ->
  unpack3 (np_squeeze (source_stacked sp))
  = Ok (source_coordinate sp 0, source_coordinate sp 1, source_coordinate sp 2).
Proof.
  intros Hs. unfold unpack3.
  rewrite (shape_squeeze_stacked _ M C) by done. reflexivity.
Qed.

Lemma shape_source_coordinate sp M C j :
  shape sp = [M; C] ->
  shape (source_coordinate sp j) = squeeze_shape [M; C `div` 3].
Proof.
  intros Hs. unfold source_coordinate, item. cbn [shape].
  rewrite (shape_squeeze_stacked _ M C) by done. reflexivity.
Qed.

Lemma extractSourcePosition_ok st ds c sp M C :
  heap st !! ds = Some (ODataset c true) ->
  variables c !! "SourcePosition" = Some sp ->
  shape sp = [M; C] ->
  C `mod` 3 = 0 ->
  extractSourcePosition ds st =
    (Ok (6 + length (heap st), 7 + length (heap st), 8 + length (heap st)),
     push (ONdarray (source_coordinate sp 2))
    (push (ONdarray (source_coordinate sp 1))
    (push (ONdarray (source_coordinate sp 0))
    (push (ONdarray (np_squeeze (source_stacked sp)))
    (push (ONdarray (source_stacked sp))
    (push (ONdarray (source_piece sp 2))
    (push (ONdarray (source_piece sp 1))
    (push (ONdarray (source_piece sp 0))
    (push (ONdarray (source_whole sp)) st))))))))).
Proof.
  intros Hds Hsp Hs HC. unfold extractSourcePosition.
  rewrite run_bind, (getvar_ok _ _ _ _ _ Hds Hsp).
  rewrite run_bind, (var_getitem_ok _ _ _ (shape sp))
    by (rewrite Hs; reflexivity).
  fold (source_whole sp).
  rewrite run_bind, (hsplit_ok _ _ (source_whole sp) _ _ _)
    by (first [heap_lookup | by eapply np_hsplit_source]).
  rewrite run_bind, (squeeze_list_ok _ _ _ _ _ _ _ (source_stacked sp))
    by (first [heap_lookup | by eapply np_stack_source]).
  rewrite (unpack_ok _ _ (np_squeeze (source_stacked sp)) _ _ _)
    by (first [heap_lookup | by eapply unpack3_source]).
  rewrite !length_heap_push. reflexivity.
Qed.

Lemma extractSourcePosition_raise st ds c sp M C :
  heap st !! ds = Some (ODataset c true) ->
  variables c !! "SourcePosition" = Some sp ->
  shape sp = [M; C] ->
  C `mod` 3 <> 0 ->
  extractSourcePosition ds st
  = (Raise ValueError, push (ONdarray (source_whole sp)) st).
Proof.
  intros Hds Hsp Hs HC. unfold extractSourcePosition.
  rewrite run_bind, (getvar_ok _ _ _ _ _ Hds Hsp).
  rewrite run_bind, (var_getitem_ok _ _ _ (shape sp))
    by (rewrite Hs; reflexivity).
  fold (source_whole sp).
  rewrite run_bind, (hsplit_raise _ _ (source_whole sp) ValueError)
    by (first [heap_lookup | by eapply np_hsplit_source_raise]).
  reflexivity.
Qed.

Lemma extractSamplingRate_ok st ds c sr I :
  heap st !! ds = Some (ODataset c true) ->
  variables c !! "Data.SamplingRate" = Some sr ->
  shape sr = [S I] ->
  extractSamplingRate ds st =
    (Ok (S (length (heap st))),
     push (ONdarray (sampling_rate sr))
       (push (ONdarray (mk_ndarray (shape sr)
                (index_data [All] (shape sr) (data sr)))) st)).
Proof.
  intros Hds Hsr Hs. unfold extractSamplingRate.
  rewrite run_bind, (getvar_ok _ _ _ _ _ Hds Hsr).
  rewrite run_bind, (var_getitem_ok _ _ _ (shape sr))
    by (rewrite Hs; reflexivity).
  rewrite (array_getitem_ok _ _ _ _ [])
    by (first [heap_lookup | cbn [shape]; rewrite Hs; reflexivity]).
  rewrite length_heap_push. reflexivity.
Qed.

End Extraction.

(** ** Names of the saved files *)

Section SavedNames.

Lemma eqb_app_suffix (suffix : string) :
  (forall t, t ∈ [".npy"; "npy"; "py"; "y"; ""] -> String.eqb suffix t = false) ->
  forall s t, t ∈ [".npy"; "npy"; "py"; "y"; ""] ->
    String.eqb (s +:+ suffix) t = false.
Proof.
  intros Hsuf. induction s as [|a s IH]; intros t Ht.
  - by apply Hsuf.
  - assert (Hcases : t = "" \/ exists b t', t = String b t'
                       /\ t' ∈ [".npy"; "npy"; "py"; "y"; ""]).
    { set_unfold in Ht.
      destruct Ht as [Ht | [Ht | [Ht | [Ht | [Ht | [] ] ] ] ] ]; subst t;
        [right..|by left];
        eexists _, _; (split; [reflexivity|]); set_solver. }
    destruct Hcases as [->|(b & t' & -> & Ht')]; [reflexivity|].
    simpl. rewrite (IH t' Ht'). by destruct (Ascii.eqb a b).
Qed.

Lemma endswith_app_suffix (suffix : string) :
  (forall t, t ∈ [".npy"; "npy"; "py"; "y"; ""] -> String.eqb suffix t = false) ->
  endswith suffix ".npy" = false ->
  forall s, endswith (s +:+ suffix) ".npy" = false.
Proof.
  intros Hsuf Hend. induction s as [|a s IH]; [done|].
  change (endswith (String a s +:+ suffix) ".npy")
    with (String.eqb (String a s +:+ suffix) ".npy" || endswith (s +:+ suffix) ".npy").
  rewrite IH, (eqb_app_suffix suffix Hsuf (String a s) ".npy") by set_solver.
  reflexivity.
Qed.

Lemma append_assoc (s t u : string) : (s +:+ t) +:+ u = s +:+ (t +:+ u).
Proof.
  induction s as [|a s IH]; [done|].
  change (String a ((s +:+ t) +:+ u) = String a (s +:+ (t +:+ u))).
  by rewrite IH.
Qed.

Lemma npy_name_L filename : npy_name (filename +:+ "_L") = filename +:+ "_L.npy".
Proof.
  unfold npy_name. rewrite endswith_app_suffix; [apply append_assoc| |done].
  intros t Ht. set_unfold in Ht.
  by destruct Ht as [Ht | [Ht | [Ht | [Ht | [Ht | [] ] ] ] ] ]; subst t.
Qed.

Lemma npy_name_R filename : npy_name (filename +:+ "_R") = filename +:+ "_R.npy".
Proof.
  unfold npy_name. rewrite endswith_app_suffix; [apply append_assoc| |done].
  intros t Ht. set_unfold in Ht.
  by destruct Ht as [Ht | [Ht | [Ht | [Ht | [Ht | [] ] ] ] ] ]; subst t.
Qed.

Lemma app_suffix_inj (s t u : string) : s +:+ t = s +:+ u -> t = u.
Proof. induction s as [|a s IH]; simpl; [done|]. intros [=]. by apply IH. Qed.

End SavedNames.

(** ** Facts about the layout *)

Section LayoutFacts.
Context {F : Type}.
Implicit Types (c : Container F) (d : DimensionSet).

Lemma has_variable_inv c name s :
  has_variable c name s = true ->
  exists a, variables c !! name = Some a /\ shape a = s /\ wf_ndarray a.
Proof.
  unfold has_variable. destruct (variables c !! name) as [a|]; [|done].
  intros [H1 H2]%andb_true_iff.
  apply bool_decide_eq_true_1 in H1. apply bool_decide_eq_true_1 in H2. eauto.
Qed.

Lemma sofa_layout_inv d c :
  sofa_layout d c = true ->
  exists lp rp sp ep ir sr,
    (variables c !! "ListenerPosition" = Some lp
     /\ shape lp = [ListenerCount d; ComponentCount d] /\ wf_ndarray lp) /\
    (variables c !! "ReceiverPosition" = Some rp
     /\ shape rp = [ReceiverCount d; ComponentCount d; ListenerCount d]
     /\ wf_ndarray rp) /\
    (variables c !! "SourcePosition" = Some sp
     /\ shape sp = [MeasurementCount d; ComponentCount d] /\ wf_ndarray sp) /\
    (variables c !! "EmitterPosition" = Some ep
     /\ shape ep = [EmitterCount d; ComponentCount d; ListenerCount d]
     /\ wf_ndarray ep) /\
    (variables c !! "Data.IR" = Some ir
     /\ shape ir = [MeasurementCount d; ReceiverCount d; SampleLength d]
     /\ wf_ndarray ir) /\
    (variables c !! "Data.SamplingRate" = Some sr
     /\ shape sr = [ListenerCount d] /\ wf_ndarray sr).
Proof.
  unfold sofa_layout. rewrite !andb_true_iff.
  intros [[[[[H1 H2] H3] H4] H5] H6].
  apply has_variable_inv in H1 as [lp ?], H2 as [rp ?], H3 as [sp ?],
    H4 as [ep ?], H5 as [ir ?], H6 as [sr ?].
  by exists lp, rp, sp, ep, ir, sr.
Qed.

Lemma validator_invariants_inv d :
  validator_invariants d = true ->
  ListenerCount d = 1 /\ EmitterCount d = 1 /\ 2 <= ReceiverCount d
  /\ 1 <= SampleLength d /\ 1 <= MeasurementCount d.
Proof.
  unfold validator_invariants. rewrite !andb_true_iff.
  rewrite !Nat.eqb_eq, !Nat.leb_le. tauto.
Qed.

End LayoutFacts.

(** ** The cells *)

Section Cells.
Context {F : Type} `{Arith F}.
Implicit Types (st : state F) (c : Container F) (rp ir sp sr : ndarray F).
Implicit Types (ds : loc) (M C R N I : nat).

Lemma index_shape_ear R C I k :
  k < R -> 2 <= C -> index_shape [Idx k; Idx 1] [R; C; I] = Ok [I].
Proof.
  intros Hk HC. simpl.
  apply Nat.ltb_lt in Hk. rewrite Hk.
  assert (Nat.ltb 1 C = true) as -> by (apply Nat.ltb_lt; lia). reflexivity.
Qed.

Lemma cell_print_ok st ds c rp sp ir R C I :
  heap st !! ds = Some (ODataset c true) ->
  variables c !! "SourcePosition" = Some sp ->
  variables c !! "Data.IR" = Some ir ->
  variables c !! "ReceiverPosition" = Some rp ->
  shape rp = [R; C; I] ->
  2 <= R -> 2 <= C ->
  cell_print ds st =
    (Ok tt,
     push (ONdarray (ear_distance rp))
       (push (ONdarray (ear_position rp 0))
          (push (ONdarray (ear_position rp 1)) st))).
Proof.
  intros Hds Hsp Hir Hrp Hs HR HC. unfold cell_print.
  rewrite run_bind, (getvar_ok _ _ _ _ _ Hds Hsp).
  rewrite run_bind, (getvar_ok _ _ _ _ _ Hds Hir).
  rewrite run_bind, (getvar_ok _ _ _ _ _ Hds Hrp).
  rewrite run_bind, (var_getitem_ok _ _ _ [I])
    by (rewrite Hs; apply index_shape_ear; lia).
  rewrite run_bind, (getvar_ok _ _ c _ rp) by heap_lookup.
  rewrite run_bind, (var_getitem_ok _ _ _ [I])
    by (rewrite Hs; apply index_shape_ear; lia).
  replace [I] with (drop 2 (shape rp)) by (by rewrite Hs).
  fold (ear_position rp 1). fold (ear_position rp 0).
  rewrite run_bind, (sub_ok _ _ _ (ear_position rp 1) (ear_position rp 0))
    by (first [heap_lookup | reflexivity]).
  reflexivity.
Qed.

(** With fewer than two receivers, or fewer than two components, the
    summary already fails, on [ReceiverPosition[1, 1]], and nothing has
    been created. *)
Lemma cell_print_raise st ds c rp sp ir R C I :
  heap st !! ds = Some (ODataset c true) ->
  variables c !! "SourcePosition" = Some sp ->
  variables c !! "Data.IR" = Some ir ->
  variables c !! "ReceiverPosition" = Some rp ->
  shape rp = [R; C; I] ->
  R < 2 \/ C < 2 ->
  cell_print ds st = (Raise IndexError, st).
Proof.
  intros Hds Hsp Hir Hrp Hs HR. unfold cell_print.
  rewrite run_bind, (getvar_ok _ _ _ _ _ Hds Hsp).
  rewrite run_bind, (getvar_ok _ _ _ _ _ Hds Hir).
  rewrite run_bind, (getvar_ok _ _ _ _ _ Hds Hrp).
  rewrite run_bind, (var_getitem_raise _ _ _ IndexError); [reflexivity|].
  rewrite Hs. simpl.
  destruct (Nat.ltb_spec 1 R); [|reflexivity].
  assert (Nat.ltb 1 C = false) as -> by (apply Nat.ltb_ge; lia). reflexivity.
Qed.

Lemma cell_extract_ok st ds c sp ir sr M M' C R N I :
  heap st !! ds = Some (ODataset c true) ->
  variables c !! "SourcePosition" = Some sp ->
  variables c !! "Data.IR" = Some ir ->
  variables c !! "Data.SamplingRate" = Some sr ->
  shape sp = [M; C] -> shape ir = [M'; R; N] -> shape sr = [S I] ->
  2 <= R -> C `mod` 3 = 0 ->
  cell_extract ds st =
    (Ok (1 + length (heap st), 3 + length (heap st),
         (10 + length (heap st), 11 + length (heap st), 12 + length (heap st)),
         14 + length (heap st)),
     push (ONdarray (sampling_rate sr))
    (push (ONdarray (mk_ndarray (shape sr) (index_data [All] (shape sr) (data sr))))
    (push (ONdarray (source_coordinate sp 2))
    (push (ONdarray (source_coordinate sp 1))
    (push (ONdarray (source_coordinate sp 0))
    (push (ONdarray (np_squeeze (source_stacked sp)))
    (push (ONdarray (source_stacked sp))
    (push (ONdarray (source_piece sp 2))
    (push (ONdarray (source_piece sp 1))
    (push (ONdarray (source_piece sp 0))
    (push (ONdarray (source_whole sp))
    (push (ONdarray (np_squeeze (receiver_slice ir 1)))
    (push (ONdarray (receiver_slice ir 1))
    (push (ONdarray (np_squeeze (receiver_slice ir 0)))
    (push (ONdarray (receiver_slice ir 0)) st))))))))))))))).
Proof.
  intros Hds Hsp Hir Hsr Ssp Sir Ssr HR HC. unfold cell_extract.
  rewrite run_bind, (extractReceiverMatrix_ok _ _ c ir M' R N 0)
    by (first [done | lia]).
  rewrite run_bind, (extractReceiverMatrix_ok _ _ c ir M' R N 1)
    by (first [done | lia | heap_lookup]).
  rewrite run_bind, (extractSourcePosition_ok _ _ c sp M C)
    by (first [done | heap_lookup]).
  rewrite run_bind, (extractSamplingRate_ok _ _ c sr I)
    by (first [done | heap_lookup]).
  rewrite !length_heap_push. reflexivity.
Qed.

End Cells.

(** ** Conversion, assembly and saving *)

Section Conversion.
Context {F : Type} `{Arith F}.
Implicit Types (st : state F) (a : ndarray F) (l : loc).

Lemma convert_azimuth_ok st l a :
  heap st !! l = Some (ONdarray a) ->
  convert_azimuth l st =
    (Ok (S (length (heap st))),
     push (ONdarray (to_azimuth a))
       (push (ONdarray (div_scalar a (of_Z 180))) st)).
Proof.
  intros Hl. unfold convert_azimuth.
  rewrite run_bind, (truediv_ok _ _ a) by done.
  rewrite (mul_ok _ _ (div_scalar a (of_Z 180))) by heap_lookup.
  rewrite length_heap_push. reflexivity.
Qed.

Lemma convert_colatitude_ok st l a :
  heap st !! l = Some (ONdarray a) ->
  convert_colatitude l st =
    (Ok (S (S (length (heap st)))),
     push (ONdarray (to_colatitude a))
       (push (ONdarray (mul_scalar (div_scalar a (of_Z 180)) np_pi))
          (push (ONdarray (div_scalar a (of_Z 180))) st))).
Proof.
  intros Hl. unfold convert_colatitude. cbv zeta.
  rewrite run_bind, (truediv_ok _ _ a) by done.
  rewrite run_bind, (mul_ok _ _ (div_scalar a (of_Z 180))) by heap_lookup.
  rewrite (rsub_ok _ _ (mul_scalar (div_scalar a (of_Z 180)) np_pi))
    by heap_lookup.
  rewrite !length_heap_push. reflexivity.
Qed.

Lemma assemble_ok st (HRIRs fs azimuth colatitude R : loc) :
  assemble HRIRs fs azimuth colatitude R st =
    (Ok (S (S (length (heap st)))),
     push (OArraySignal (length (heap st)) (S (length (heap st))))
       (push (OSphericalGrid azimuth colatitude R)
          (push (OTimeSignal HRIRs fs) st))).
Proof.
  unfold assemble, TimeSignal, SphericalGrid, ArraySignal.
  rewrite run_bind, alloc_ok, run_bind, alloc_ok, alloc_ok.
  rewrite !length_heap_push. reflexivity.
Qed.

Lemma cell_convert_ok st (HRIRs_l HRIRs_r Az El R fs : loc) a e :
  heap st !! Az = Some (ONdarray a) ->
  heap st !! El = Some (ONdarray e) ->
  cell_convert HRIRs_l HRIRs_r Az El R fs st =
    (Ok (1 + length (heap st), 4 + length (heap st),
         7 + length (heap st), 10 + length (heap st)),
     push (OArraySignal (8 + length (heap st)) (9 + length (heap st)))
    (push (OSphericalGrid (1 + length (heap st)) (4 + length (heap st)) R)
    (push (OTimeSignal HRIRs_r fs)
    (push (OArraySignal (5 + length (heap st)) (6 + length (heap st)))
    (push (OSphericalGrid (1 + length (heap st)) (4 + length (heap st)) R)
    (push (OTimeSignal HRIRs_l fs)
    (push (ONdarray (to_colatitude e))
    (push (ONdarray (mul_scalar (div_scalar e (of_Z 180)) np_pi))
    (push (ONdarray (div_scalar e (of_Z 180)))
    (push (ONdarray (to_azimuth a))
    (push (ONdarray (div_scalar a (of_Z 180))) st))))))))))).
Proof.
  intros Ha He. unfold cell_convert.
  rewrite run_bind, (convert_azimuth_ok _ _ a) by done.
  rewrite run_bind, (convert_colatitude_ok _ _ e) by heap_lookup.
  rewrite run_bind, assemble_ok, run_bind, assemble_ok.
  rewrite !length_heap_push. reflexivity.
Qed.

Lemma np_save_ok st file l f :
  snapshot (heap st) l = Some f ->
  np_save file l st =
    (Ok tt, mk_state (heap st) (files st) ((npy_name file, f) :: disk st)).
Proof. intros Hs. unfold np_save. rewrite Hs. reflexivity. Qed.

End Conversion.

(** ** A complete run *)

Section CompleteRun.
Context {F : Type} `{Arith F}.
Variables (sofa_files : gmap string (Container F)) (path filename : string).
Variables (c : Container F) (rp sp ir sr : ndarray F).
Variables (M M' C C' R R' N I I' : nat).
Hypothesis Hfile : sofa_files !! (path +:+ filename +:+ ".sofa") = Some c.
Hypothesis Hrp : variables c !! "ReceiverPosition" = Some rp.
Hypothesis Hsp : variables c !! "SourcePosition" = Some sp.
Hypothesis Hir : variables c !! "Data.IR" = Some ir.
Hypothesis Hsr : variables c !! "Data.SamplingRate" = Some sr.
Hypothesis Srp : shape rp = [R'; C'; I'].
Hypothesis Ssp : shape sp = [M; C].
Hypothesis Sir : shape ir = [M'; R; N].
Hypothesis Ssr : shape sr = [S I].
Hypothesis HR : 2 <= R.
Hypothesis HR' : 2 <= R'.
Hypothesis HC' : 2 <= C'.
Hypothesis HC : C `mod` 3 = 0.

(** Whenever the variables read have these shapes, the run raises nothing
    and ends in the state written above: the summary needs two receivers
    and two components in ReceiverPosition, the extraction two receivers
    in Data.IR, a number of components divisible by three in
    SourcePosition and one sampling rate at least. *)
Lemma run_ok :
  run path filename (fresh_kernel sofa_files) =
    (Ok namespace_after_run,
     mk_state (heap_after_run c rp sp ir sr) sofa_files
       [ (filename +:+ "_R.npy", saved_signal sp ir sr 1);
         (filename +:+ "_L.npy", saved_signal sp ir sr 0) ]).
Proof using All.
  unfold run, cell_open.
  rewrite run_bind, (Dataset_ok _ _ c) by done.
  rewrite run_bind, (cell_print_ok _ _ c rp sp ir R' C' I')
    by (first [done | heap_lookup]).
  rewrite run_bind, (cell_extract_ok _ _ c sp ir sr M M' C R N I)
    by (first [done | heap_lookup]).
  rewrite run_bind, (close_ok _ _ c) by heap_lookup.
  cbn [fresh_kernel push heap files disk length app Nat.add insert list_insert].
  rewrite run_bind,
    (cell_convert_ok _ _ _ _ _ _ _ (source_coordinate sp 0) (source_coordinate sp 1))
    by done.
  cbn [push heap files disk length app].
  unfold cell_save.
  rewrite !run_bind, (np_save_ok _ _ _ (saved_signal sp ir sr 0)) by done.
  rewrite (np_save_ok _ _ _ (saved_signal sp ir sr 1)) by done.
  rewrite npy_name_L, npy_name_R. reflexivity.
Qed.
End CompleteRun.

(** ** What the extracted coordinates hold *)

Section SourceData.
Context {F : Type}.
Implicit Types (l : list F) (sp : ndarray F) (M k j m n : nat).

Lemma size_of_squeeze (s : list nat) : size_of (squeeze_shape s) = size_of s.
Proof.
  induction s as [|d s IH]; [done|].
  unfold squeeze_shape in *. rewrite filter_cons.
  destruct (decide (d ≠ 1)) as [Hd|Hd]; unfold size_of in *; simpl.
  - by rewrite IH.
  - assert (d = 1) as -> by lia. rewrite IH. lia.
Qed.

Lemma index_data_all_2 M C l :
  length l = M * C -> index_data [All] [M; C] l = l.
Proof.
  intros Hlen.
  change (index_data [All] [M; C] l)
    with (concat (map (index_data [] [C]) (chunks M (size_of [C]) l))).
  replace (map (index_data [] [C]) (chunks M (size_of [C]) l))
    with (chunks M (size_of [C]) l) by (symmetry; apply map_id).
  rewrite concat_chunks. apply take_ge.
  unfold size_of; simpl. lia.
Qed.

Lemma data_source_whole sp M C :
  shape sp = [M; C] -> wf_ndarray sp -> data (source_whole sp) = data sp.
Proof.
  intros Hs Hwf. unfold source_whole. cbn [data]. rewrite Hs.
  apply index_data_all_2. rewrite Hwf, Hs. unfold size_of; simpl. lia.
Qed.

(** A piece of [np.hsplit] is a column block: piece [j] of an array of
    shape (M, 3k) holds at (m, n) what the array holds at (m, jk + n). *)
Lemma data_source_piece sp M k j :
  shape sp = [M; 3 * k] -> wf_ndarray sp ->
  data (source_piece sp j)
  = concat (map (fun row => take k (drop (j * k) row))
                (chunks M (3 * k) (data sp))).
Proof.
  intros Hs Hwf. unfold source_piece.
  rewrite (data_source_whole sp M (3 * k)) by done.
  rewrite Hs. unfold hsplit_piece. cbn [data].
  replace ((3 * k) `div` 3) with k
    by (symmetry; rewrite Nat.mul_comm; apply Nat.div_mul; lia).
  replace (size_of []) with 1 by reflexivity.
  rewrite !Nat.mul_1_r. reflexivity.
Qed.

Lemma length_source_piece sp M k j :
  shape sp = [M; 3 * k] -> wf_ndarray sp -> j < 3 ->
  length (data (source_piece sp j)) = M * k.
Proof.
  intros Hs Hwf Hj. rewrite (data_source_piece sp M k j) by done.
  rewrite <- (index_data_receiver_unfold M 3 k j).
  apply index_data_receiver_length; [|done].
  rewrite Hwf, Hs. unfold size_of; simpl. lia.
Qed.

Lemma lookup_source_piece sp M k j m n :
  shape sp = [M; 3 * k] -> wf_ndarray sp -> j < 3 -> m < M -> n < k ->
  data (source_piece sp j) !! (m * k + n) = data sp !! ((m * 3 + j) * k + n).
Proof.
  intros Hs Hwf Hj Hm Hn. rewrite (data_source_piece sp M k j) by done.
  rewrite <- (index_data_receiver_unfold M 3 k j).
  apply index_data_receiver_lookup; [|done..].
  rewrite Hwf, Hs. unfold size_of; simpl. lia.
Qed.

(** Stacking, squeezing and unpacking give the pieces back, with the unit
    axes gone. *)
Lemma data_source_coordinate sp M k j :
  shape sp = [M; 3 * k] -> wf_ndarray sp -> j < 3 ->
  data (source_coordinate sp j) = data (source_piece sp j).
Proof.
  intros Hs Hwf Hj. unfold source_coordinate, item.
  assert (HC : (3 * k) `div` 3 = k)
    by (rewrite Nat.mul_comm; apply Nat.div_mul; lia).
  rewrite (shape_squeeze_stacked sp M (3 * k)) by done.
  cbn [tail data]. rewrite size_of_squeeze, HC.
  replace (size_of [M; k]) with (M * k) by (unfold size_of; simpl; lia).
  unfold source_stacked, np_squeeze. cbn [data map concat].
  pose proof (length_source_piece sp M k 0 Hs Hwf) as L0.
  pose proof (length_source_piece sp M k 1 Hs Hwf) as L1.
  pose proof (length_source_piece sp M k 2 Hs Hwf) as L2.
  specialize (L0 ltac:(lia)). specialize (L1 ltac:(lia)). specialize (L2 ltac:(lia)).
  destruct j as [|[|[|j]]]; [| | |lia].
  - rewrite Nat.mul_0_l, drop_0. rewrite take_app_le by lia.
    apply take_ge. lia.
  - rewrite Nat.mul_1_l. rewrite drop_app_length' by lia.
    rewrite take_app_le by lia. apply take_ge. lia.
  - rewrite app_assoc. rewrite drop_app_length' by (rewrite length_app; lia).
    rewrite take_app_le by lia. apply take_ge. lia.
Qed.

(** With three components, coordinate [j] of measurement [m] is element
    [(m, j)] of SourcePosition. *)
Lemma lookup_source_coordinate sp M j m :
  shape sp = [M; 3] -> wf_ndarray sp -> j < 3 -> m < M ->
  data (source_coordinate sp j) !! m = data sp !! (m * 3 + j).
Proof.
  intros Hs Hwf Hj Hm.
  rewrite (data_source_coordinate sp M 1 j) by done.
  pose proof (lookup_source_piece sp M 1 j m 0 Hs Hwf Hj Hm ltac:(lia)) as Hp.
  replace (m * 1 + 0) with m in Hp by lia.
  replace ((m * 3 + j) * 1 + 0) with (m * 3 + j) in Hp by lia. done.
Qed.

Lemma length_source_coordinate sp M j :
  shape sp = [M; 3] -> wf_ndarray sp -> j < 3 ->
  length (data (source_coordinate sp j)) = M.
Proof.
  intros Hs Hwf Hj. rewrite (data_source_coordinate sp M 1 j) by done.
  rewrite (length_source_piece sp M 1 j) by done. lia.
Qed.

End SourceData.

(** * The claims *)

(** ** Receiver matrices *)

Section ReceiverMatrix.
Context {F : Type} `{Arith F}.

Lemma squeeze_shape_2 (M N : nat) :
  squeeze_shape [M; N] =
    if decide (M = 1) then (if decide (N = 1) then [] else [N])
    else (if decide (N = 1) then [M] else [M; N]).
Proof.
  unfold squeeze_shape. rewrite !filter_cons, filter_nil.
  repeat case_decide; try done; lia.
Qed.

(** C3 (as amended): for a container of the layout that meets the
    validator's invariants and a receiver index [r < R],
    [extractReceiverMatrix] returns a new array that holds at (m, n) the
    element (m, r, n) of Data.IR, whose shape is (M, N) with the axes of
    length one removed by [np.squeeze]: exactly (M, N) when M >= 2 and
    N >= 2, hence (710, 512) for a (710, 2, 512) variable, but (N) when
    M = 1, (M) when N = 1 and () when both are 1. *)
Theorem extractReceiverMatrix_shape
    (st : state F) (ds : loc) (c : Container F) (d : DimensionSet) (r : nat) :
  heap st !! ds = Some (ODataset c true) ->
  sofa_layout d c = true ->
  validator_invariants d = true ->
  r < ReceiverCount d ->
  exists (l : loc) (a ir : ndarray F) (st' : state F),
    variables c !! "Data.IR" = Some ir
    /\ extractReceiverMatrix ds r st = (Ok l, st')
    /\ heap st' !! l = Some (ONdarray a)
    /\ (2 <= MeasurementCount d -> 2 <= SampleLength d ->
        shape a = [MeasurementCount d; SampleLength d])
    /\ (MeasurementCount d = 710 -> SampleLength d = 512 ->
        shape a = [710; 512])
    /\ (MeasurementCount d = 1 -> 2 <= SampleLength d ->
        shape a = [SampleLength d])
    /\ (2 <= MeasurementCount d -> SampleLength d = 1 ->
        shape a = [MeasurementCount d])
    /\ (MeasurementCount d = 1 -> SampleLength d = 1 -> shape a = [])
    /\ (forall m n, m < MeasurementCount d -> n < SampleLength d ->
        data a !! (m * SampleLength d + n)
        = data ir !! ((m * ReceiverCount d + r) * SampleLength d + n)).
Proof.
  intros Hds Hlay Hval Hr.
  apply sofa_layout_inv in Hlay
    as (lp & rp & sp & ep & ir & sr & _ & _ & _ & _ & (Hir & Sir & Wir) & _).
  apply validator_invariants_inv in Hval as (_ & _ & HR & HN & HM).
  set (M := MeasurementCount d) in *. set (N := SampleLength d) in *.
  set (R := ReceiverCount d) in *.
  exists (S (length (heap st))), (np_squeeze (receiver_slice ir r)), ir.
  eexists. split; [done|]. split.
  { by apply (extractReceiverMatrix_ok st ds c ir M R N r). }
  split; [heap_lookup|].
  assert (Hshape : shape (np_squeeze (receiver_slice ir r)) = squeeze_shape [M; N]).
  { unfold np_squeeze, receiver_slice. cbn [shape]. by rewrite Sir. }
  rewrite Hshape, squeeze_shape_2.
  repeat split.
  - intros. repeat case_decide; try done; lia.
  - intros HM' HN'. repeat case_decide; try lia. by rewrite HM', HN'.
  - intros. repeat case_decide; try done; lia.
  - intros. repeat case_decide; try done; lia.
  - intros. repeat case_decide; try done; lia.
  - intros m n Hm Hn. unfold np_squeeze, receiver_slice. cbn [data].
    rewrite Sir. apply index_data_receiver_lookup; [|done..].
    rewrite Wir, Sir. unfold size_of; simpl. lia.
Qed.

End ReceiverMatrix.

(** A kernel in which only the container has been opened. *)
Lemma extractReceiverMatrix_shape_witness :
  exists (l : loc) (a ir : ndarray float) (st' : state float),
    variables small_hrir !! "Data.IR" = Some ir
    /\ extractReceiverMatrix 0 1 (push (ODataset small_hrir true) (fresh_kernel ∅))
       = (Ok l, st')
    /\ heap st' !! l = Some (ONdarray a)
    /\ (2 <= 2 -> 2 <= 3 -> shape a = [2; 3])
    /\ (2 = 710 -> 3 = 512 -> shape a = [710; 512])
    /\ (2 = 1 -> 2 <= 3 -> shape a = [3])
    /\ (2 <= 2 -> 3 = 1 -> shape a = [2])
    /\ (2 = 1 -> 3 = 1 -> shape a = [])
    /\ (forall m n, m < 2 -> n < 3 ->
        data a !! (m * 3 + n) = data ir !! ((m * 2 + 1) * 3 + n)).
Proof.
  apply (extractReceiverMatrix_shape
           (push (ODataset small_hrir true) (fresh_kernel ∅)) 0 small_hrir
           small_dims 1);
    [reflexivity | vm_compute; reflexivity | reflexivity | simpl; lia].
Defined.

(** C3 as claimed fails for a single measurement: the variable has shape
    (1, 2, 3), the container meets the validator's invariants, and the array
    returned for receiver 0 has shape (3), not (1, 3). *)
Lemma extractReceiverMatrix_single_measurement :
  sofa_layout one_measurement_dims one_measurement = true
  /\ validator_invariants one_measurement_dims = true
  /\ exists (a : ndarray float) (st' : state float),
       extractReceiverMatrix 0 0
         (push (ODataset one_measurement true) (fresh_kernel ∅)) = (Ok 2, st')
       /\ heap st' !! 2 = Some (ONdarray a)
       /\ shape a = [3]
       /\ shape a <> [MeasurementCount one_measurement_dims;
                      SampleLength one_measurement_dims].
Proof.
  split; [vm_compute; reflexivity|]. split; [reflexivity|].
  eexists _, _. split; [vm_compute; reflexivity|].
  split; [reflexivity|]. split; [reflexivity|]. discriminate.
Qed.

(** ** The number of components *)

Section Components.
Context {F : Type} `{Arith F}.

(** C9: the unpacking of SourcePosition, of shape (M, C), relies on C = 3
    without checking it.  When 3 does not divide C, [np.hsplit] raises
    (a ValueError).  When it does, nothing is raised, whatever C is; the
    three arrays have the shape (M, C/3) with the unit axes removed, which
    for C = 3 and M >= 2 is (M), and for every other multiple of 3 is not
    (M).  A complete run on a container of the layout with two receivers
    or more, one listener or more and any positive multiple of three
    components raises nothing either. *)
Theorem extractSourcePosition_components :
  (forall (st : state F) (ds : loc) (c : Container F) (sp : ndarray F)
          (M C : nat),
     heap st !! ds = Some (ODataset c true) ->
     variables c !! "SourcePosition" = Some sp ->
     shape sp = [M; C] ->
     (C `mod` 3 <> 0 ->
      exists st', extractSourcePosition ds st = (Raise ValueError, st'))
     /\ (C `mod` 3 = 0 ->
         exists (az el r : loc) (a b e : ndarray F) (st' : state F),
           extractSourcePosition ds st = (Ok (az, el, r), st')
           /\ heap st' !! az = Some (ONdarray a)
           /\ heap st' !! el = Some (ONdarray b)
           /\ heap st' !! r = Some (ONdarray e)
           /\ (C = 3 -> 2 <= M ->
               shape a = [M] /\ shape b = [M] /\ shape e = [M])
           /\ (C <> 3 ->
               shape a <> [M] /\ shape b <> [M] /\ shape e <> [M])))
  /\ (forall (sofa_files : gmap string (Container F)) (path filename : string)
             (c : Container F) (d : DimensionSet),
        sofa_files !! (path +:+ filename +:+ ".sofa") = Some c ->
        sofa_layout d c = true ->
        2 <= ReceiverCount d -> 1 <= ListenerCount d ->
        ComponentCount d `mod` 3 = 0 -> 1 <= ComponentCount d ->
        exists st',
          run path filename (fresh_kernel sofa_files)
          = (Ok namespace_after_run, st')).
Proof.
  split.
  - intros st ds c sp M C Hds Hsp Hs. split; intros HC.
    + eexists. by apply (extractSourcePosition_raise st ds c sp M C).
    + exists (6 + length (heap st)), (7 + length (heap st)),
        (8 + length (heap st)).
      exists (source_coordinate sp 0), (source_coordinate sp 1),
        (source_coordinate sp 2).
      eexists. split.
      { by apply (extractSourcePosition_ok st ds c sp M C). }
      split; [heap_lookup|]. split; [heap_lookup|]. split; [heap_lookup|].
      rewrite !(shape_source_coordinate sp M C) by done.
      rewrite squeeze_shape_2.
      split.
      * intros -> HM. change (3 `div` 3) with 1.
        repeat case_decide; try done; lia.
      * intros HC3.
        assert (C `div` 3 <> 1).
        { intros Hq. apply HC3. rewrite (Nat.div_mod_eq C 3), Hq, HC. lia. }
        generalize dependent (C `div` 3). intros q Hq.
        repeat case_decide; repeat split; intros [=]; lia.
  - intros sofa_files path filename c d Hfile Hlay HR HI HC HC1.
    apply sofa_layout_inv in Hlay
      as (lp & rp & sp & ep & ir & sr & _ & (Hrp & Srp & _) & (Hsp & Ssp & _)
          & _ & (Hir & Sir & _) & (Hsr & Ssr & _)).
    destruct (ListenerCount d) as [|I] eqn:EI; [lia|].
    eexists.
    apply (run_ok sofa_files path filename c rp sp ir sr
             (MeasurementCount d) (MeasurementCount d) (ComponentCount d)
             (ComponentCount d) (ReceiverCount d) (ReceiverCount d)
             (SampleLength d) I (S I)); try done.
    destruct (ComponentCount d) as [|[|C]]; [lia|done|lia].
Qed.

End Components.

Lemma extractSourcePosition_components_witness :
  (exists st',
     extractSourcePosition 0 (push (ODataset four_components true) (fresh_kernel ∅))
     = (Raise ValueError, st'))
  /\ (exists (az el r : loc) (a b e : ndarray float) (st' : state float),
        extractSourcePosition 0
          (push (ODataset six_components true) (fresh_kernel ∅))
        = (Ok (az, el, r), st')
        /\ heap st' !! az = Some (ONdarray a)
        /\ heap st' !! el = Some (ONdarray b)
        /\ heap st' !! r = Some (ONdarray e)
        /\ (6 = 3 -> 2 <= 2 -> shape a = [2] /\ shape b = [2] /\ shape e = [2])
        /\ (6 <> 3 -> shape a <> [2] /\ shape b <> [2] /\ shape e <> [2]))
  /\ (exists st',
        run "sofa/" "mit_kemar_large_pinna" (kernel_with six_components)
        = (Ok namespace_after_run, st')).
Proof.
  pose proof (@extractSourcePosition_components float _) as [Hsplit Hrun].
  split; [|split].
  - refine (proj1 (Hsplit (push (ODataset four_components true) (fresh_kernel ∅))
                     0 four_components
                     (mk_ndarray [2; 4] (replicate 8 1%float)) 2 4 _ _ _) _);
      [reflexivity | reflexivity | reflexivity | vm_compute; lia].
  - refine (proj2 (Hsplit (push (ODataset six_components true) (fresh_kernel ∅))
                     0 six_components
                     (mk_ndarray [2; 6] (replicate 12 1%float)) 2 6 _ _ _) _);
      reflexivity.
  - apply (Hrun _ "sofa/" "mit_kemar_large_pinna" six_components
             six_components_dims);
      [reflexivity | vm_compute; reflexivity | simpl; lia | simpl; lia
      | reflexivity | simpl; lia].
Defined.

(** ** Conversion leaves the extracted arrays alone *)

Section Frame.
Context {F : Type} `{Arith F}.

(** C10: the sixth cell only creates objects.  Every object that existed
    before it, the extracted azimuth, elevation and radius arrays among
    them, is the same afterwards; [azimuth] and [colatitude] are arrays
    that did not exist before; the two grids are two objects whose three
    fields hold the same references, the radius field being the very
    reference [R] that extraction returned. *)
Theorem cell_convert_frame
    (st : state F) (HRIRs_l HRIRs_r Az El R fs : loc) (a e : ndarray F) :
  heap st !! Az = Some (ONdarray a) ->
  heap st !! El = Some (ONdarray e) ->
  exists (azimuth colatitude hrir_full_l hrir_full_r : loc)
         (ts_l ts_r grid_l grid_r : loc) (st' : state F),
    cell_convert HRIRs_l HRIRs_r Az El R fs st
    = (Ok (azimuth, colatitude, hrir_full_l, hrir_full_r), st')
    /\ (forall l o, heap st !! l = Some o -> heap st' !! l = Some o)
    /\ files st' = files st /\ disk st' = disk st
    /\ heap st !! azimuth = None /\ heap st !! colatitude = None
    /\ heap st' !! azimuth = Some (ONdarray (to_azimuth a))
    /\ heap st' !! colatitude = Some (ONdarray (to_colatitude e))
    /\ heap st' !! hrir_full_l = Some (OArraySignal ts_l grid_l)
    /\ heap st' !! hrir_full_r = Some (OArraySignal ts_r grid_r)
    /\ grid_l <> grid_r
    /\ heap st' !! grid_l = Some (OSphericalGrid azimuth colatitude R)
    /\ heap st' !! grid_r = Some (OSphericalGrid azimuth colatitude R).
Proof.
  intros Ha He.
  exists (1 + length (heap st)), (4 + length (heap st)),
    (7 + length (heap st)), (10 + length (heap st)).
  exists (5 + length (heap st)), (8 + length (heap st)),
    (6 + length (heap st)), (9 + length (heap st)).
  eexists. split; [by apply (cell_convert_ok st _ _ _ _ _ _ a e)|].
  split; [intros l o Hl; heap_lookup|].
  split; [reflexivity|]. split; [reflexivity|].
  split; [apply lookup_ge_None; lia|]. split; [apply lookup_ge_None; lia|].
  split; [heap_lookup|]. split; [heap_lookup|].
  split; [heap_lookup|]. split; [heap_lookup|].
  split; [lia|]. split; heap_lookup.
Qed.

End Frame.

Lemma cell_convert_frame_witness :
  exists (azimuth colatitude hrir_full_l hrir_full_r : loc)
         (ts_l ts_r grid_l grid_r : loc) (st' : state float),
    cell_convert 3 4 0 1 2 5 extracted_state
    = (Ok (azimuth, colatitude, hrir_full_l, hrir_full_r), st')
    /\ (forall l o, heap extracted_state !! l = Some o -> heap st' !! l = Some o)
    /\ files st' = files extracted_state /\ disk st' = disk extracted_state
    /\ heap extracted_state !! azimuth = None
    /\ heap extracted_state !! colatitude = None
    /\ heap st' !! azimuth
       = Some (ONdarray (to_azimuth (mk_ndarray [2] [90; 360]%float)))
    /\ heap st' !! colatitude
       = Some (ONdarray (to_colatitude (mk_ndarray [2] [0; -90]%float)))
    /\ heap st' !! hrir_full_l = Some (OArraySignal ts_l grid_l)
    /\ heap st' !! hrir_full_r = Some (OArraySignal ts_r grid_r)
    /\ grid_l <> grid_r
    /\ heap st' !! grid_l = Some (OSphericalGrid azimuth colatitude 2)
    /\ heap st' !! grid_r = Some (OSphericalGrid azimuth colatitude 2).
Proof.
  apply (cell_convert_frame extracted_state 3 4 0 1 2 5
           (mk_ndarray [2] [90; 360]%float) (mk_ndarray [2] [0; -90]%float));
    reflexivity.
Defined.

(** ** Complete runs on containers of the layout *)

Section RunLayout.
Context {F : Type} `{Arith F}.
Implicit Types (c : Container F) (d : DimensionSet).

Lemma run_layout (sofa_files : gmap string (Container F)) path filename c d :
  sofa_files !! (path +:+ filename +:+ ".sofa") = Some c ->
  sofa_layout d c = true ->
  2 <= ReceiverCount d -> 1 <= ListenerCount d ->
  ComponentCount d `mod` 3 = 0 -> 2 <= ComponentCount d ->
  exists rp sp ir sr,
    (variables c !! "ReceiverPosition" = Some rp
     /\ variables c !! "SourcePosition" = Some sp
     /\ variables c !! "Data.IR" = Some ir
     /\ variables c !! "Data.SamplingRate" = Some sr)
    /\ (shape sp = [MeasurementCount d; ComponentCount d] /\ wf_ndarray sp)
    /\ (shape ir = [MeasurementCount d; ReceiverCount d; SampleLength d]
        /\ wf_ndarray ir)
    /\ run path filename (fresh_kernel sofa_files) =
         (Ok namespace_after_run,
          mk_state (heap_after_run c rp sp ir sr) sofa_files
            [ (filename +:+ "_R.npy", saved_signal sp ir sr 1);
              (filename +:+ "_L.npy", saved_signal sp ir sr 0) ]).
Proof.
  intros Hfile Hlay HR HI HC HC2.
  apply sofa_layout_inv in Hlay
    as (lp & rp & sp & ep & ir & sr & _ & (Hrp & Srp & _) & (Hsp & Ssp & Wsp)
        & _ & (Hir & Sir & Wir) & (Hsr & Ssr & _)).
  exists rp, sp, ir, sr. split; [done|]. split; [done|]. split; [done|].
  destruct (ListenerCount d) as [|I] eqn:EI; [lia|].
  by apply (run_ok sofa_files path filename c rp sp ir sr
              (MeasurementCount d) (MeasurementCount d) (ComponentCount d)
              (ComponentCount d) (ReceiverCount d) (ReceiverCount d)
              (SampleLength d) I (S I)).
Qed.

Lemma valid_input_inv d c :
  valid_input d c = true ->
  sofa_layout d c = true
  /\ ListenerCount d = 1 /\ EmitterCount d = 1 /\ 2 <= ReceiverCount d
  /\ 1 <= SampleLength d /\ 1 <= MeasurementCount d /\ ComponentCount d = 3.
Proof.
  unfold valid_input. rewrite !andb_true_iff, Nat.eqb_eq.
  intros [[Hlay Hval] HC]. apply validator_invariants_inv in Hval. tauto.
Qed.

Lemma run_valid (sofa_files : gmap string (Container F)) path filename c d :
  sofa_files !! (path +:+ filename +:+ ".sofa") = Some c ->
  valid_input d c = true ->
  exists rp sp ir sr,
    (variables c !! "ReceiverPosition" = Some rp
     /\ variables c !! "SourcePosition" = Some sp
     /\ variables c !! "Data.IR" = Some ir
     /\ variables c !! "Data.SamplingRate" = Some sr)
    /\ (shape sp = [MeasurementCount d; ComponentCount d] /\ wf_ndarray sp)
    /\ (shape ir = [MeasurementCount d; ReceiverCount d; SampleLength d]
        /\ wf_ndarray ir)
    /\ run path filename (fresh_kernel sofa_files) =
         (Ok namespace_after_run,
          mk_state (heap_after_run c rp sp ir sr) sofa_files
            [ (filename +:+ "_R.npy", saved_signal sp ir sr 1);
              (filename +:+ "_L.npy", saved_signal sp ir sr 0) ]).
Proof.
  intros Hfile (Hlay & HI & _ & HR & _ & _ & HC)%valid_input_inv.
  apply run_layout; try done; try lia. by rewrite HC.
Qed.

Lemma lookup_receiver_matrix (ir : ndarray F) M R N r m n :
  shape ir = [M; R; N] -> wf_ndarray ir -> r < R -> m < M -> n < N ->
  data (np_squeeze (receiver_slice ir r)) !! (m * N + n)
  = data ir !! ((m * R + r) * N + n).
Proof.
  intros Sir Wir Hr Hm Hn. unfold np_squeeze, receiver_slice. cbn [data].
  rewrite Sir. apply index_data_receiver_lookup; [|done..].
  rewrite Wir, Sir. unfold size_of; simpl. lia.
Qed.

End RunLayout.

(** ** Output artifacts *)

Section Artifacts.
Context {F : Type} `{Arith F}.

(** C5 (as amended): for every valid input the run writes exactly two
    artifacts, whatever the number R >= 2 of receivers: the Array Signal
    of receiver 0 under the source base name followed by [_L.npy] and
    that of receiver 1 under the base name followed by [_R.npy], two
    different names.  That is one artifact per receiver exactly when
    R = 2. *)
Theorem run_saves_two_channels
    (sofa_files : gmap string (Container F)) (path filename : string)
    (c : Container F) (d : DimensionSet) :
  sofa_files !! (path +:+ filename +:+ ".sofa") = Some c ->
  valid_input d c = true ->
  exists (ns : Namespace) (st' : state F) (ir : ndarray F)
         (file_l file_r : ArraySignalFile F),
    run path filename (fresh_kernel sofa_files) = (Ok ns, st')
    /\ variables c !! "Data.IR" = Some ir
    /\ disk st' = [ (filename +:+ "_R.npy", file_r);
                    (filename +:+ "_L.npy", file_l) ]
    /\ filename +:+ "_L.npy" <> filename +:+ "_R.npy"
    /\ snapshot (heap st') (hrir_full_l ns) = Some file_l
    /\ snapshot (heap st') (hrir_full_r ns) = Some file_r
    /\ (forall m n, m < MeasurementCount d -> n < SampleLength d ->
        data (file_signal file_l) !! (m * SampleLength d + n)
        = data ir !! ((m * ReceiverCount d + 0) * SampleLength d + n)
        /\ data (file_signal file_r) !! (m * SampleLength d + n)
           = data ir !! ((m * ReceiverCount d + 1) * SampleLength d + n))
    /\ (length (disk st') = ReceiverCount d <-> ReceiverCount d = 2).
Proof.
  intros Hfile Hvalid.
  destruct (run_valid sofa_files path filename c d Hfile Hvalid)
    as (rp & sp & ir & sr & (_ & _ & Hir & _) & _ & (Sir & Wir) & Hrun).
  apply valid_input_inv in Hvalid as (_ & _ & _ & HR & _ & _ & _).
  eexists _, _, ir, (saved_signal sp ir sr 0), (saved_signal sp ir sr 1).
  split; [exact Hrun|]. split; [done|]. split; [reflexivity|].
  split; [intros Heq%app_suffix_inj; discriminate|].
  split; [reflexivity|]. split; [reflexivity|].
  split; [|simpl; lia].
  intros m n Hm Hn. cbn [saved_signal file_signal].
  split;
    apply (lookup_receiver_matrix ir (MeasurementCount d) (ReceiverCount d));
    try done; lia.
Qed.

End Artifacts.

Lemma run_saves_two_channels_witness :
  exists (ns : Namespace) (st' : state float) (ir : ndarray float)
         (file_l file_r : ArraySignalFile float),
    run "sofa/" "mit_kemar_large_pinna" (kernel_with small_hrir) = (Ok ns, st')
    /\ variables small_hrir !! "Data.IR" = Some ir
    /\ disk st' = [ ("mit_kemar_large_pinna" +:+ "_R.npy", file_r);
                    ("mit_kemar_large_pinna" +:+ "_L.npy", file_l) ]
    /\ "mit_kemar_large_pinna" +:+ "_L.npy" <> "mit_kemar_large_pinna" +:+ "_R.npy"
    /\ snapshot (heap st') (hrir_full_l ns) = Some file_l
    /\ snapshot (heap st') (hrir_full_r ns) = Some file_r
    /\ (forall m n, m < 2 -> n < 3 ->
        data (file_signal file_l) !! (m * 3 + n) = data ir !! ((m * 2 + 0) * 3 + n)
        /\ data (file_signal file_r) !! (m * 3 + n)
           = data ir !! ((m * 2 + 1) * 3 + n))
    /\ (length (disk st') = 2 <-> 2 = 2).
Proof.
  apply (run_saves_two_channels _ "sofa/" "mit_kemar_large_pinna" small_hrir
           small_dims); [reflexivity | vm_compute; reflexivity].
Defined.

(** C5 as claimed fails for three receivers: the input is valid, R = 3, and
    the run writes two artifacts, none for receiver 2. *)
Lemma run_three_receivers_two_files :
  valid_input three_receivers_dims three_receivers = true
  /\ ReceiverCount three_receivers_dims = 3
  /\ exists ns st',
       notebook (kernel_with three_receivers) = (Ok ns, st')
       /\ map fst (disk st')
          = ["mit_kemar_large_pinna_R.npy"; "mit_kemar_large_pinna_L.npy"]
       /\ length (disk st') <> ReceiverCount three_receivers_dims.
Proof.
  split; [vm_compute; reflexivity|]. split; [reflexivity|].
  eexists _, _. split; [vm_compute; reflexivity|].
  split; [reflexivity|]. simpl. lia.
Qed.

(** ** Runs that raise *)

Section FailingRuns.
Context {F : Type} `{Arith F}.
Implicit Types (st : state F) (c : Container F) (d : DimensionSet).

Lemma run_missing_file (sofa_files : gmap string (Container F)) path filename :
  sofa_files !! (path +:+ filename +:+ ".sofa") = None ->
  run path filename (fresh_kernel sofa_files)
  = (Raise IOError, fresh_kernel sofa_files).
Proof.
  intros Hfile. unfold run, cell_open.
  rewrite run_bind, Dataset_missing by done. reflexivity.
Qed.

Lemma run_few_receivers (sofa_files : gmap string (Container F))
    path filename c d :
  sofa_files !! (path +:+ filename +:+ ".sofa") = Some c ->
  sofa_layout d c = true ->
  ReceiverCount d < 2 \/ ComponentCount d < 2 ->
  run path filename (fresh_kernel sofa_files)
  = (Raise IndexError, push (ODataset c true) (fresh_kernel sofa_files)).
Proof.
  intros Hfile Hlay HR.
  apply sofa_layout_inv in Hlay
    as (lp & rp & sp & ep & ir & sr & _ & (Hrp & Srp & _) & (Hsp & _)
        & _ & (Hir & _) & _).
  unfold run, cell_open.
  rewrite run_bind, (Dataset_ok _ _ c) by done.
  rewrite run_bind,
    (cell_print_raise _ _ c rp sp ir (ReceiverCount d) (ComponentCount d)
       (ListenerCount d)) by (first [done | heap_lookup]).
  reflexivity.
Qed.

Lemma cell_extract_bad_components st ds c sp ir M M' C R N :
  heap st !! ds = Some (ODataset c true) ->
  variables c !! "SourcePosition" = Some sp ->
  variables c !! "Data.IR" = Some ir ->
  shape sp = [M; C] -> shape ir = [M'; R; N] ->
  2 <= R -> C `mod` 3 <> 0 ->
  cell_extract ds st =
    (Raise ValueError,
     push (ONdarray (source_whole sp))
    (push (ONdarray (np_squeeze (receiver_slice ir 1)))
    (push (ONdarray (receiver_slice ir 1))
    (push (ONdarray (np_squeeze (receiver_slice ir 0)))
    (push (ONdarray (receiver_slice ir 0)) st))))).
Proof.
  intros Hds Hsp Hir Ssp Sir HR HC. unfold cell_extract.
  rewrite run_bind, (extractReceiverMatrix_ok _ _ c ir M' R N 0)
    by (first [done | lia]).
  rewrite run_bind, (extractReceiverMatrix_ok _ _ c ir M' R N 1)
    by (first [done | lia | heap_lookup]).
  rewrite run_bind, (extractSourcePosition_raise _ _ c sp M C)
    by (first [done | heap_lookup]).
  reflexivity.
Qed.

Lemma extractSamplingRate_empty st ds c sr :
  heap st !! ds = Some (ODataset c true) ->
  variables c !! "Data.SamplingRate" = Some sr ->
  shape sr = [0] ->
  extractSamplingRate ds st =
    (Raise IndexError,
     push (ONdarray (mk_ndarray (shape sr)
             (index_data [All] (shape sr) (data sr)))) st).
Proof.
  intros Hds Hsr Hs. unfold extractSamplingRate.
  rewrite run_bind, (getvar_ok _ _ _ _ _ Hds Hsr).
  rewrite run_bind, (var_getitem_ok _ _ _ (shape sr))
    by (rewrite Hs; reflexivity).
  rewrite (array_getitem_raise _ _ _ _ IndexError)
    by (first [heap_lookup | cbn [shape]; rewrite Hs; reflexivity]).
  reflexivity.
Qed.

Lemma run_bad_components (sofa_files : gmap string (Container F))
    path filename c d :
  sofa_files !! (path +:+ filename +:+ ".sofa") = Some c ->
  sofa_layout d c = true ->
  2 <= ReceiverCount d -> 2 <= ComponentCount d ->
  ComponentCount d `mod` 3 <> 0 ->
  exists st',
    run path filename (fresh_kernel sofa_files) = (Raise ValueError, st')
    /\ heap st' !! 0 = Some (ODataset c true)
    /\ open_handles (heap st') = [0]
    /\ disk st' = [].
Proof.
  intros Hfile Hlay HR HC2 HC.
  apply sofa_layout_inv in Hlay
    as (lp & rp & sp & ep & ir & sr & _ & (Hrp & Srp & _) & (Hsp & Ssp & _)
        & _ & (Hir & Sir & _) & _).
  eexists. split.
  - unfold run, cell_open.
    rewrite run_bind, (Dataset_ok _ _ c) by done.
    rewrite run_bind,
      (cell_print_ok _ _ c rp sp ir (ReceiverCount d) (ComponentCount d)
         (ListenerCount d)) by (first [done | heap_lookup]).
    rewrite run_bind,
      (cell_extract_bad_components _ _ c sp ir (MeasurementCount d)
         (MeasurementCount d) (ComponentCount d) (ReceiverCount d)
         (SampleLength d)) by (first [done | heap_lookup]).
    reflexivity.
  - repeat split; reflexivity.
Qed.

Lemma run_no_listener (sofa_files : gmap string (Container F))
    path filename c d :
  sofa_files !! (path +:+ filename +:+ ".sofa") = Some c ->
  sofa_layout d c = true ->
  2 <= ReceiverCount d -> 2 <= ComponentCount d ->
  ComponentCount d `mod` 3 = 0 -> ListenerCount d = 0 ->
  exists st',
    run path filename (fresh_kernel sofa_files) = (Raise IndexError, st')
    /\ heap st' !! 0 = Some (ODataset c true)
    /\ open_handles (heap st') = [0]
    /\ disk st' = [].
Proof.
  intros Hfile Hlay HR HC2 HC HI.
  apply sofa_layout_inv in Hlay
    as (lp & rp & sp & ep & ir & sr & _ & (Hrp & Srp & _) & (Hsp & Ssp & _)
        & _ & (Hir & Sir & _) & (Hsr & Ssr & _)).
  rewrite HI in Ssr.
  eexists. split.
  - unfold run, cell_open.
    rewrite run_bind, (Dataset_ok _ _ c) by done.
    rewrite run_bind,
      (cell_print_ok _ _ c rp sp ir (ReceiverCount d) (ComponentCount d)
         (ListenerCount d)) by (first [done | lia | heap_lookup]).
    unfold cell_extract.
    rewrite !run_bind,
      (extractReceiverMatrix_ok _ _ c ir (MeasurementCount d)
         (ReceiverCount d) (SampleLength d) 0)
      by (first [done | lia | heap_lookup]).
    rewrite run_bind,
      (extractReceiverMatrix_ok _ _ c ir (MeasurementCount d)
         (ReceiverCount d) (SampleLength d) 1)
      by (first [done | lia | heap_lookup]).
    rewrite run_bind,
      (extractSourcePosition_ok _ _ c sp (MeasurementCount d) (ComponentCount d))
      by (first [done | heap_lookup]).
    rewrite run_bind, (extractSamplingRate_empty _ _ c sr)
      by (first [done | heap_lookup]).
    reflexivity.
  - repeat split; reflexivity.
Qed.

End FailingRuns.

(** ** Every outcome of a run on a container of the layout *)

Section Outcome.
Context {F : Type} `{Arith F}.

Lemma run_outcome (sofa_files : gmap string (Container F)) path filename
    (c : Container F) (d : DimensionSet) :
  sofa_files !! (path +:+ filename +:+ ".sofa") = Some c ->
  sofa_layout d c = true ->
  ((2 <= ReceiverCount d /\ 1 <= ListenerCount d
    /\ ComponentCount d `mod` 3 = 0 /\ 2 <= ComponentCount d)
   /\ exists rp sp ir sr,
        run path filename (fresh_kernel sofa_files) =
          (Ok namespace_after_run,
           mk_state (heap_after_run c rp sp ir sr) sofa_files
             [ (filename +:+ "_R.npy", saved_signal sp ir sr 1);
               (filename +:+ "_L.npy", saved_signal sp ir sr 0) ]))
  \/ ((ReceiverCount d < 2 \/ ListenerCount d = 0
       \/ ComponentCount d `mod` 3 <> 0 \/ ComponentCount d < 2)
      /\ exists e st',
           run path filename (fresh_kernel sofa_files) = (Raise e, st')
           /\ (e = IndexError \/ e = ValueError)
           /\ heap st' !! 0 = Some (ODataset c true)
           /\ open_handles (heap st') = [0]
           /\ disk st' = []).
Proof.
  intros Hfile Hlay.
  destruct (decide (ReceiverCount d < 2 \/ ComponentCount d < 2)) as [Hfew|Hfew].
  { right. split; [tauto|]. exists IndexError. eexists.
    split; [by apply (run_few_receivers sofa_files path filename c d)|].
    split; [by left|]. repeat split; reflexivity. }
  destruct (decide (ComponentCount d `mod` 3 = 0)) as [HC|HC].
  2:{ right. split; [tauto|]. exists ValueError.
      destruct (run_bad_components sofa_files path filename c d)
        as (st' & Hrun & ?); try done; try lia.
      exists st'. split; [done|]. split; [by right|]. done. }
  destruct (decide (ListenerCount d = 0)) as [HI|HI].
  { right. split; [tauto|]. exists IndexError.
    destruct (run_no_listener sofa_files path filename c d)
      as (st' & Hrun & ?); try done; try lia.
    exists st'. split; [done|]. split; [by left|]. done. }
  left. split; [lia|].
  destruct (run_layout sofa_files path filename c d)
    as (rp & sp & ir & sr & _ & _ & _ & Hrun); try done; try lia.
  by exists rp, sp, ir, sr.
Qed.

End Outcome.

(** ** No validation step *)

Section Validation.
Context {F : Type} `{Arith F}.

(** C2 (as amended): the notebook has no validation step and [SchemaError]
    is never raised, whatever the container of the layout.  With fewer than
    two receivers the run does fail before any extraction, but with the
    [IndexError] of the subscript [ReceiverPosition[1, 1]] in the summary
    cell, when only the handle exists.  The listener and emitter counts are
    not looked at: with two receivers or more, three components and at
    least one listener the run completes and saves both files, so a
    container with two listeners, or with any number of emitters, is
    accepted. *)
Theorem run_without_validation
    (sofa_files : gmap string (Container F)) (path filename : string)
    (c : Container F) (d : DimensionSet) :
  sofa_files !! (path +:+ filename +:+ ".sofa") = Some c ->
  sofa_layout d c = true ->
  (forall r st',
     run path filename (fresh_kernel sofa_files) = (r, st') ->
     r <> Raise SchemaError)
  /\ (ReceiverCount d < 2 ->
      run path filename (fresh_kernel sofa_files)
      = (Raise IndexError, push (ODataset c true) (fresh_kernel sofa_files)))
  /\ (2 <= ReceiverCount d -> 1 <= ListenerCount d -> ComponentCount d = 3 ->
      exists st',
        run path filename (fresh_kernel sofa_files)
        = (Ok namespace_after_run, st')
        /\ length (disk st') = 2).
Proof.
  intros Hfile Hlay. split; [|split].
  - intros r st' Hrun.
    destruct (run_outcome sofa_files path filename c d Hfile Hlay)
      as [(_ & rp & sp & ir & sr & Hok)|(_ & e & st'' & Hraise & He & _)].
    + rewrite Hok in Hrun. by injection Hrun as <- _.
    + rewrite Hraise in Hrun. injection Hrun as <- _.
      by destruct He as [-> | ->].
  - intros HR. apply (run_few_receivers sofa_files path filename c d); tauto.
  - intros HR HI HC.
    destruct (run_layout sofa_files path filename c d)
      as (rp & sp & ir & sr & _ & _ & _ & Hrun); try done.
    { by rewrite HC. } { lia. }
    eexists. split; [exact Hrun|reflexivity].
Qed.

End Validation.

Lemma run_without_validation_witness :
  (forall r st',
     run "sofa/" "mit_kemar_large_pinna" (kernel_with two_listeners) = (r, st') ->
     r <> Raise SchemaError)
  /\ (ReceiverCount two_listeners_dims < 2 ->
      run "sofa/" "mit_kemar_large_pinna" (kernel_with two_listeners)
      = (Raise IndexError,
         push (ODataset two_listeners true)
           (fresh_kernel {[ "sofa/mit_kemar_large_pinna.sofa" := two_listeners ]})))
  /\ (2 <= ReceiverCount two_listeners_dims ->
      1 <= ListenerCount two_listeners_dims ->
      ComponentCount two_listeners_dims = 3 ->
      exists st',
        run "sofa/" "mit_kemar_large_pinna" (kernel_with two_listeners)
        = (Ok namespace_after_run, st')
        /\ length (disk st') = 2).
Proof.
  apply (run_without_validation _ "sofa/" "mit_kemar_large_pinna" two_listeners
           two_listeners_dims); [reflexivity | vm_compute; reflexivity].
Defined.

(** C2 as claimed fails on both of its examples: a container with two
    listeners is processed to the end, and one with a single receiver is
    rejected with [IndexError], not [SchemaError]. *)
Lemma run_accepts_two_listeners :
  (sofa_layout two_listeners_dims two_listeners = true
   /\ ListenerCount two_listeners_dims = 2
   /\ exists ns st',
        notebook (kernel_with two_listeners) = (Ok ns, st')
        /\ (Ok ns : result Namespace) <> Raise SchemaError)
  /\ (sofa_layout one_receiver_dims one_receiver = true
      /\ ReceiverCount one_receiver_dims = 1
      /\ exists st',
           notebook (kernel_with one_receiver) = (Raise IndexError, st')
           /\ (Raise IndexError : result Namespace) <> Raise SchemaError).
Proof.
  split.
  - split; [vm_compute; reflexivity|]. split; [reflexivity|].
    eexists _, _. split; [vm_compute; reflexivity | discriminate].
  - split; [vm_compute; reflexivity|]. split; [reflexivity|].
    eexists. split; [vm_compute; reflexivity | discriminate].
Qed.

(** ** Release of the container handle *)

Section Release.
Context {F : Type} `{Arith F}.

(** C4 (as amended): the handle is closed by a cell of its own, after the
    extraction cell; there is no scoped release.  If the file cannot be
    opened the run ends with [IOError] and no handle was ever created.  On
    a container of the layout, a run that ends normally has closed the
    handle and leaves no handle open; a run that ends with an exception
    ends with its handle still open.  Both happen: valid inputs end
    normally, inputs with fewer than two receivers end with an
    exception. *)
Theorem handle_release
    (sofa_files : gmap string (Container F)) (path filename : string) :
  (sofa_files !! (path +:+ filename +:+ ".sofa") = None ->
   exists st',
     run path filename (fresh_kernel sofa_files) = (Raise IOError, st')
     /\ heap st' = [])
  /\ (forall (c : Container F) (d : DimensionSet),
        sofa_files !! (path +:+ filename +:+ ".sofa") = Some c ->
        sofa_layout d c = true ->
        (forall ns st',
           run path filename (fresh_kernel sofa_files) = (Ok ns, st') ->
           heap st' !! sofa_file ns = Some (ODataset c false)
           /\ open_handles (heap st') = [])
        /\ (forall e st',
              run path filename (fresh_kernel sofa_files) = (Raise e, st') ->
              heap st' !! 0 = Some (ODataset c true)
              /\ open_handles (heap st') = [0])
        /\ (valid_input d c = true ->
            exists ns st',
              run path filename (fresh_kernel sofa_files) = (Ok ns, st'))
        /\ (ReceiverCount d < 2 ->
            exists st',
              run path filename (fresh_kernel sofa_files)
              = (Raise IndexError, st'))).
Proof.
  split.
  - intros Hfile. eexists. split; [by apply run_missing_file|reflexivity].
  - intros c d Hfile Hlay.
    pose proof (run_outcome sofa_files path filename c d Hfile Hlay) as Hout.
    split; [|split; [|split]].
    + intros ns st' Hrun.
      destruct Hout as [(_ & rp & sp & ir & sr & Hok)|(_ & e & st'' & Hraise & _)].
      * rewrite Hok in Hrun. injection Hrun as <- <-. split; reflexivity.
      * rewrite Hraise in Hrun. discriminate.
    + intros e st' Hrun.
      destruct Hout as [(_ & rp & sp & ir & sr & Hok)
                       |(_ & e' & st'' & Hraise & _ & H0 & Hopen & _)].
      * rewrite Hok in Hrun. discriminate.
      * rewrite Hraise in Hrun. injection Hrun as <- <-. done.
    + intros Hvalid.
      destruct (run_valid sofa_files path filename c d Hfile Hvalid)
        as (rp & sp & ir & sr & _ & _ & _ & Hrun).
      eexists _, _. exact Hrun.
    + intros HR. eexists.
      apply (run_few_receivers sofa_files path filename c d); tauto.
Qed.

End Release.

Lemma handle_release_witness :
  (exists st',
     run "sofa/" "mit_kemar_large_pinna" (fresh_kernel (∅ : gmap string (Container float)))
     = (Raise IOError, st')
     /\ heap st' = [])
  /\ (forall ns st',
        run "sofa/" "mit_kemar_large_pinna" (kernel_with small_hrir) = (Ok ns, st') ->
        heap st' !! sofa_file ns = Some (ODataset small_hrir false)
        /\ open_handles (heap st') = [])
  /\ (exists ns st',
        run "sofa/" "mit_kemar_large_pinna" (kernel_with small_hrir) = (Ok ns, st'))
  /\ (forall e st',
        run "sofa/" "mit_kemar_large_pinna" (kernel_with one_receiver) = (Raise e, st') ->
        heap st' !! 0 = Some (ODataset one_receiver true)
        /\ open_handles (heap st') = [0])
  /\ (exists st',
        run "sofa/" "mit_kemar_large_pinna" (kernel_with one_receiver)
        = (Raise IndexError, st')).
Proof.
  split; [|split; [|split; [|split]]].
  - apply (proj1 (handle_release (∅ : gmap string (Container float))
                    "sofa/" "mit_kemar_large_pinna")).
    reflexivity.
  - apply (proj2 (handle_release _ "sofa/" "mit_kemar_large_pinna")
             small_hrir small_dims); [reflexivity | vm_compute; reflexivity].
  - apply (proj2 (handle_release _ "sofa/" "mit_kemar_large_pinna")
             small_hrir small_dims);
      [reflexivity | vm_compute; reflexivity | vm_compute; reflexivity].
  - apply (proj2 (handle_release _ "sofa/" "mit_kemar_large_pinna")
             one_receiver one_receiver_dims);
      [reflexivity | vm_compute; reflexivity].
  - apply (proj2 (handle_release _ "sofa/" "mit_kemar_large_pinna")
             one_receiver one_receiver_dims);
      [reflexivity | vm_compute; reflexivity | simpl; lia].
Defined.

(** C4 as claimed fails on the error path: with a single receiver the run
    ends with [IndexError] and the handle, object 0 of the store, is still
    open. *)
Lemma run_error_leaves_handle_open :
  exists st',
    notebook (kernel_with one_receiver) = (Raise IndexError, st')
    /\ heap st' !! 0 = Some (ODataset one_receiver true)
    /\ open_handles (heap st') = [0]
    /\ open_handles (heap st') <> [].
Proof.
  eexists. split; [vm_compute; reflexivity|]. repeat split. discriminate.
Qed.

(** ** Spherical grids *)

Section Grids.
Context {F : Type} `{Arith F}.

(** C6 (as amended): a run on a valid input constructs the Spherical Grid
    once per receiver channel, twice in all: the store ends with exactly
    two grid objects, one referenced by each Array Signal.  The azimuth,
    colatitude and radius arrays are computed once, and both grids hold
    references to these same three arrays, so the two channels see
    identical grid values, also in the saved files. *)
Theorem grid_per_channel
    (sofa_files : gmap string (Container F)) (path filename : string)
    (c : Container F) (d : DimensionSet) :
  sofa_files !! (path +:+ filename +:+ ".sofa") = Some c ->
  valid_input d c = true ->
  exists (ns : Namespace) (st' : state F) (ts_l ts_r grid_l grid_r : loc)
         (file_l file_r : ArraySignalFile F),
    run path filename (fresh_kernel sofa_files) = (Ok ns, st')
    /\ grid_locs (heap st') = [grid_l; grid_r]
    /\ grid_l <> grid_r
    /\ heap st' !! hrir_full_l ns = Some (OArraySignal ts_l grid_l)
    /\ heap st' !! hrir_full_r ns = Some (OArraySignal ts_r grid_r)
    /\ heap st' !! grid_l
       = Some (OSphericalGrid (azimuth ns) (colatitude ns) (Rad ns))
    /\ heap st' !! grid_r
       = Some (OSphericalGrid (azimuth ns) (colatitude ns) (Rad ns))
    /\ snapshot (heap st') (hrir_full_l ns) = Some file_l
    /\ snapshot (heap st') (hrir_full_r ns) = Some file_r
    /\ file_azimuth file_l = file_azimuth file_r
    /\ file_colatitude file_l = file_colatitude file_r
    /\ file_radius file_l = file_radius file_r.
Proof.
  intros Hfile Hvalid.
  destruct (run_valid sofa_files path filename c d Hfile Hvalid)
    as (rp & sp & ir & sr & _ & _ & _ & Hrun).
  eexists _, _, 24, 27, 25, 28, _, _.
  split; [exact Hrun|].
  split; [reflexivity|]. split; [lia|].
  repeat (split; [reflexivity|]). reflexivity.
Qed.

End Grids.

Lemma grid_per_channel_witness :
  exists (ns : Namespace) (st' : state float) (ts_l ts_r grid_l grid_r : loc)
         (file_l file_r : ArraySignalFile float),
    run "sofa/" "mit_kemar_large_pinna" (kernel_with small_hrir) = (Ok ns, st')
    /\ grid_locs (heap st') = [grid_l; grid_r]
    /\ grid_l <> grid_r
    /\ heap st' !! hrir_full_l ns = Some (OArraySignal ts_l grid_l)
    /\ heap st' !! hrir_full_r ns = Some (OArraySignal ts_r grid_r)
    /\ heap st' !! grid_l
       = Some (OSphericalGrid (azimuth ns) (colatitude ns) (Rad ns))
    /\ heap st' !! grid_r
       = Some (OSphericalGrid (azimuth ns) (colatitude ns) (Rad ns))
    /\ snapshot (heap st') (hrir_full_l ns) = Some file_l
    /\ snapshot (heap st') (hrir_full_r ns) = Some file_r
    /\ file_azimuth file_l = file_azimuth file_r
    /\ file_colatitude file_l = file_colatitude file_r
    /\ file_radius file_l = file_radius file_r.
Proof.
  apply (grid_per_channel _ "sofa/" "mit_kemar_large_pinna" small_hrir small_dims);
    [reflexivity | vm_compute; reflexivity].
Defined.

(** C6 as claimed fails on a valid input: the run constructs two Spherical
    Grid objects, at positions 25 and 28 of the store, not one. *)
Lemma run_constructs_two_grids :
  valid_input small_dims small_hrir = true
  /\ exists ns st',
       notebook (kernel_with small_hrir) = (Ok ns, st')
       /\ grid_locs (heap st') = [25; 28]
       /\ length (grid_locs (heap st')) <> 1.
Proof.
  split; [vm_compute; reflexivity|].
  eexists _, _. split; [vm_compute; reflexivity|].
  split; [reflexivity|]. simpl. lia.
Qed.

(** ** Coordinate conversion *)

Section ConversionValues.
Context {F : Type} `{Arith F}.

Lemma lookup_to_azimuth (a : ndarray F) i x :
  data a !! i = Some x ->
  data (to_azimuth a) !! i = Some (amul (adiv x (of_Z 180)) np_pi).
Proof.
  intros Hx. unfold to_azimuth, mul_scalar, div_scalar. cbn [data].
  change (map ?f ?l) with (f <$> l).
  rewrite !list_lookup_fmap, Hx. reflexivity.
Qed.

Lemma lookup_to_colatitude (a : ndarray F) i x :
  data a !! i = Some x ->
  data (to_colatitude a) !! i
  = Some (asub (adiv np_pi (of_Z 2)) (amul (adiv x (of_Z 180)) np_pi)).
Proof.
  intros Hx. unfold to_colatitude, scalar_sub, mul_scalar, div_scalar.
  cbn [data]. change (map ?f ?l) with (f <$> l).
  rewrite !list_lookup_fmap, Hx. reflexivity.
Qed.

End ConversionValues.

Section Binary64Conversion.
Local Open Scope float_scope.


(** C7: in binary64, the two conversions of the sixth cell, run one after
    the other as the cell does, each give a new array of the shape and
    length of their operand whose element i is (x / 180) * np.pi,
    respectively np.pi / 2 - (x / 180) * np.pi, for the element x of the
    operand at i, whatever x is: nothing is clamped, wrapped or normalized.
    An azimuth of 360 degrees becomes 2 * np.pi, which is neither 0 nor
    below 2 * np.pi, and one of -180 degrees becomes -np.pi, below 0; an
    elevation of -90 degrees becomes the colatitude np.pi, and one of 180
    degrees the colatitude -np.pi / 2, below 0. *)
Theorem conversion_passes_through
    (st : state float) (Az El : loc) (a e : ndarray float) :
  heap st !! Az = Some (ONdarray a) ->
  heap st !! El = Some (ONdarray e) ->
  exists (azimuth colatitude : loc) (b c : ndarray float)
         (st1 st2 : state float),
    convert_azimuth Az st = (Ok azimuth, st1)
    /\ convert_colatitude El st1 = (Ok colatitude, st2)
    /\ heap st2 !! azimuth = Some (ONdarray b)
    /\ heap st2 !! colatitude = Some (ONdarray c)
    /\ (shape b = shape a /\ length (data b) = length (data a))
    /\ (shape c = shape e /\ length (data c) = length (data e))
    /\ (forall i x, data a !! i = Some x ->
        data b !! i = Some (x / 180 * np_pi))
    /\ (forall i x, data e !! i = Some x ->
        data c !! i = Some (np_pi / 2 - x / 180 * np_pi))
    /\ (forall i, data a !! i = Some 360 ->
        exists y, data b !! i = Some y
                  /\ y = 2 * np_pi
                  /\ PrimFloat.eqb y 0 = false
                  /\ PrimFloat.ltb y (2 * np_pi) = false)
    /\ (forall i, data a !! i = Some (-180) ->
        exists y, data b !! i = Some y
                  /\ y = - np_pi
                  /\ PrimFloat.ltb y 0 = true)
    /\ (forall i, data e !! i = Some (-90) ->
        exists z, data c !! i = Some z
                  /\ z = np_pi
                  /\ PrimFloat.leb z np_pi = true)
    /\ (forall i, data e !! i = Some 180 ->
        exists z, data c !! i = Some z
                  /\ z = - (np_pi / 2)
                  /\ PrimFloat.ltb z 0 = true).
Proof.
  intros Ha He.
  exists (S (length (heap st))), (4 + length (heap st))%nat,
    (to_azimuth a), (to_colatitude e).
  eexists _, _.
  split; [by apply (convert_azimuth_ok st Az a)|].
  split.
  { rewrite (convert_colatitude_ok _ El e) by heap_lookup.
    rewrite !length_heap_push. reflexivity. }
  split; [heap_lookup|]. split; [heap_lookup|].
  assert (Hb : forall i x, data a !! i = Some x ->
               data (to_azimuth a) !! i = Some (x / 180 * np_pi)).
  { intros i x Hx. by rewrite (lookup_to_azimuth a i x Hx). }
  assert (Hc : forall i x, data e !! i = Some x ->
               data (to_colatitude e) !! i = Some (np_pi / 2 - x / 180 * np_pi)).
  { intros i x Hx. by rewrite (lookup_to_colatitude e i x Hx). }
  split.
  { split; [reflexivity|].
    unfold to_azimuth, mul_scalar, div_scalar. cbn [data].
    by rewrite !length_map. }
  split.
  { split; [reflexivity|].
    unfold to_colatitude, scalar_sub, mul_scalar, div_scalar. cbn [data].
    by rewrite !length_map. }
  split; [exact Hb|]. split; [exact Hc|].
  split.
  { intros i Hx. eexists. split; [exact (Hb i _ Hx)|].
    repeat split; vm_compute; reflexivity. }
  split.
  { intros i Hx. eexists. split; [exact (Hb i _ Hx)|].
    repeat split; vm_compute; reflexivity. }
  split.
  { intros i Hx. eexists. split; [exact (Hc i _ Hx)|].
    repeat split; vm_compute; reflexivity. }
  intros i Hx. eexists. split; [exact (Hc i _ Hx)|].
  repeat split; vm_compute; reflexivity.
Qed.

End Binary64Conversion.



Lemma conversion_passes_through_witness :
  exists (azimuth colatitude : loc) (b c : ndarray float)
         (st1 st2 : state float),
    convert_azimuth 0 out_of_range_state = (Ok azimuth, st1)
    /\ convert_colatitude 1 st1 = (Ok colatitude, st2)
    /\ heap st2 !! azimuth = Some (ONdarray b)
    /\ heap st2 !! colatitude = Some (ONdarray c)
    /\ (shape b = [2] /\ length (data b) = 2)
    /\ (shape c = [2] /\ length (data c) = 2)
    /\ (forall i x, [360; -180]%float !! i = Some x ->
        data b !! i = Some (x / 180 * np_pi)%float)
    /\ (forall i x, [-90; 180]%float !! i = Some x ->
        data c !! i = Some (np_pi / 2 - x / 180 * np_pi)%float)
    /\ (forall i, [360; -180]%float !! i = Some 360%float ->
        exists y, data b !! i = Some y
                  /\ y = (2 * np_pi)%float
                  /\ PrimFloat.eqb y 0 = false
                  /\ PrimFloat.ltb y (2 * np_pi) = false)
    /\ (forall i, [360; -180]%float !! i = Some (-180)%float ->
        exists y, data b !! i = Some y
                  /\ y = (- np_pi)%float
                  /\ PrimFloat.ltb y 0 = true)
    /\ (forall i, [-90; 180]%float !! i = Some (-90)%float ->
        exists z, data c !! i = Some z
                  /\ z = np_pi
                  /\ PrimFloat.leb z np_pi = true)
    /\ (forall i, [-90; 180]%float !! i = Some 180%float ->
        exists z, data c !! i = Some z
                  /\ z = (- (np_pi / 2))%float
                  /\ PrimFloat.ltb z 0 = true).
Proof.
  apply (conversion_passes_through out_of_range_state 0 1
           (mk_ndarray [2] [360; -180]%float) (mk_ndarray [2] [-90; 180]%float));
    reflexivity.
Defined.

(** ** Values of the examples *)

(** What Python computes for the positions of the examples: [np.pi / 2]
    for 90 degrees of azimuth and for 0 degrees of elevation, [2 * np.pi]
    for 360 degrees, [np.pi] for -90 degrees of elevation, exactly. *)
Lemma binary64_conversion :
  to_azimuth (mk_ndarray [2] [90; 360]%float)
  = mk_ndarray [2] [0x1.921fb54442d18p+0; 0x1.921fb54442d18p+2]%float
  /\ to_colatitude (mk_ndarray [2] [0; -90]%float)
     = mk_ndarray [2] [0x1.921fb54442d18p+0; 0x1.921fb54442d18p+1]%float.
Proof. split; vm_compute; reflexivity. Qed.

(** The complete run on the small container saves these grids with the
    radii unchanged, in both files. *)
Lemma binary64_run :
  exists ns st',
    notebook (kernel_with small_hrir) = (Ok ns, st')
    /\ map fst (disk st')
       = ["mit_kemar_large_pinna_R.npy"; "mit_kemar_large_pinna_L.npy"]
    /\ map (fun f => (file_azimuth (snd f), file_colatitude (snd f),
                      file_radius (snd f))) (disk st')
       = replicate 2
           (mk_ndarray [2] [0x1.921fb54442d18p+0; 0x1.921fb54442d18p+2]%float,
            mk_ndarray [2] [0x1.921fb54442d18p+0; 0x1.921fb54442d18p+1]%float,
            mk_ndarray [2] [1.5; 1.25]%float)
    /\ map (fun f => file_signal (snd f)) (disk st')
       = [ mk_ndarray [2; 3] [4; 5; 6; 10; 11; 12]%float;
           mk_ndarray [2; 3] [1; 2; 3; 7; 8; 9]%float ].
Proof.
  eexists _, _. split; [vm_compute; reflexivity|].
  repeat split.
Qed.

(** * Further properties of the extraction cell *)

(** ** The three columns of SourcePosition *)

Section Columns.
Context {F : Type} `{Arith F}.

(** X1: with three components, the unpacking of
    [np.squeeze(np.hsplit(SourcePosition[:], 3))] yields the three columns
    of SourcePosition as three new, different arrays: element m of the
    first is SourcePosition[m, 0], of the second SourcePosition[m, 1], of
    the third SourcePosition[m, 2].  Each has M elements and the shape (M),
    except for a single measurement, where the squeeze leaves three
    zero-dimensional values. *)
Theorem extractSourcePosition_columns
    (st : state F) (ds : loc) (c : Container F) (sp : ndarray F) (M : nat) :
  heap st !! ds = Some (ODataset c true) ->
  variables c !! "SourcePosition" = Some sp ->
  shape sp = [M; 3] ->
  wf_ndarray sp ->
  exists (az el r : loc) (a b e : ndarray F) (st' : state F),
    extractSourcePosition ds st = (Ok (az, el, r), st')
    /\ (heap st' !! az = Some (ONdarray a)
        /\ heap st' !! el = Some (ONdarray b)
        /\ heap st' !! r = Some (ONdarray e))
    /\ (heap st !! az = None /\ heap st !! el = None /\ heap st !! r = None)
    /\ (az <> el /\ el <> r /\ az <> r)
    /\ (shape a = (if decide (M = 1) then [] else [M])
        /\ shape b = shape a /\ shape e = shape a)
    /\ (length (data a) = M /\ length (data b) = M /\ length (data e) = M)
    /\ (forall m, m < M ->
        data a !! m = data sp !! (m * 3)
        /\ data b !! m = data sp !! (m * 3 + 1)
        /\ data e !! m = data sp !! (m * 3 + 2)).
Proof.
  intros Hds Hsp Ssp Wsp.
  exists (6 + length (heap st)), (7 + length (heap st)), (8 + length (heap st)).
  exists (source_coordinate sp 0), (source_coordinate sp 1),
    (source_coordinate sp 2).
  eexists. split.
  { by apply (extractSourcePosition_ok st ds c sp M 3). }
  split. { split; [heap_lookup|]. split; heap_lookup. }
  split. { repeat split; apply lookup_ge_None; lia. }
  split; [lia|].
  split.
  { rewrite !(shape_source_coordinate sp M 3) by done.
    change (3 `div` 3) with 1. rewrite squeeze_shape_2.
    split; [|done]. repeat case_decide; try done; lia. }
  split.
  { rewrite !(length_source_coordinate sp M) by (done || lia). done. }
  intros m Hm.
  rewrite !(lookup_source_coordinate sp M) by (done || lia).
  rewrite Nat.add_0_r. done.
Qed.

End Columns.

Lemma extractSourcePosition_columns_witness :
  exists (az el r : loc) (a b e : ndarray float) (st' : state float),
    extractSourcePosition 0 (push (ODataset one_measurement true) (fresh_kernel ∅))
    = (Ok (az, el, r), st')
    /\ (heap st' !! az = Some (ONdarray a)
        /\ heap st' !! el = Some (ONdarray b)
        /\ heap st' !! r = Some (ONdarray e))
    /\ (heap (push (ODataset one_measurement true) (fresh_kernel ∅)) !! az = None
        /\ heap (push (ODataset one_measurement true) (fresh_kernel ∅)) !! el = None
        /\ heap (push (ODataset one_measurement true) (fresh_kernel ∅)) !! r = None)
    /\ (az <> el /\ el <> r /\ az <> r)
    /\ (shape a = (if decide (1 = 1) then [] else [1])
        /\ shape b = shape a /\ shape e = shape a)
    /\ (length (data a) = 1 /\ length (data b) = 1 /\ length (data e) = 1)
    /\ (forall m, m < 1 ->
        data a !! m = [90; 0; 1.5]%float !! (m * 3)
        /\ data b !! m = [90; 0; 1.5]%float !! (m * 3 + 1)
        /\ data e !! m = [90; 0; 1.5]%float !! (m * 3 + 2)).
Proof.
  apply (extractSourcePosition_columns
           (push (ODataset one_measurement true) (fresh_kernel ∅)) 0
           one_measurement (mk_ndarray [1; 3] [90; 0; 1.5]%float) 1);
    reflexivity.
Defined.

(** ** The sampling rate *)

Section SamplingRate.
Context {F : Type} `{Arith F}.

Lemma index_data_all_1 (n : nat) (l : list F) :
  index_data [All] [n] l = take n l.
Proof.
  change (index_data [All] [n] l)
    with (concat (map (index_data [] []) (chunks n (size_of []) l))).
  rewrite map_id_chunks, concat_chunks.
  replace (size_of []) with 1 by reflexivity. by rewrite Nat.mul_1_r.
Qed.

Lemma data_sampling_rate (sr : ndarray F) (I : nat) (x : F) :
  shape sr = [S I] -> data sr !! 0 = Some x -> data (sampling_rate sr) = [x].
Proof.
  intros Hs Hx. unfold sampling_rate. cbn [data]. rewrite Hs.
  rewrite index_data_all_1.
  change (index_data [Idx 0] [S I] ?l)
    with (take (size_of []) (drop (0 * size_of []) l)).
  replace (size_of []) with 1 by reflexivity. rewrite Nat.mul_0_l, drop_0.
  rewrite take_take. replace (1 `min` S I) with 1 by lia.
  destruct (data sr) as [|y l]; [done|]. by injection Hx as ->.
Qed.

(** X2: [Data.SamplingRate[:][0]] is the rate of the first listener, whatever
    the number of listeners: a new zero-dimensional value holding element 0
    of the variable.  With no listener at all the subscript [0] raises
    [IndexError], after the whole (empty) variable has been read. *)
Theorem extractSamplingRate_first
    (st : state F) (ds : loc) (c : Container F) (sr : ndarray F) (I : nat) :
  heap st !! ds = Some (ODataset c true) ->
  variables c !! "Data.SamplingRate" = Some sr ->
  shape sr = [I] ->
  wf_ndarray sr ->
  (I = 0 ->
   exists st', extractSamplingRate ds st = (Raise IndexError, st')
               /\ length (heap st') = S (length (heap st)))
  /\ (1 <= I ->
      exists (l : loc) (a : ndarray F) (x : F) (st' : state F),
        extractSamplingRate ds st = (Ok l, st')
        /\ heap st' !! l = Some (ONdarray a)
        /\ heap st !! l = None
        /\ shape a = []
        /\ data sr !! 0 = Some x
        /\ data a = [x]).
Proof.
  intros Hds Hsr Hs Hwf. split.
  - intros ->. eexists. split.
    + by apply (extractSamplingRate_empty st ds c sr).
    + apply length_heap_push.
  - intros HI. destruct I as [|I]; [lia|].
    assert (Hx : exists x, data sr !! 0 = Some x).
    { apply lookup_lt_is_Some. rewrite Hwf, Hs. unfold size_of; simpl. lia. }
    destruct Hx as [x Hx].
    exists (S (length (heap st))), (sampling_rate sr), x. eexists.
    split; [by apply (extractSamplingRate_ok st ds c sr I)|].
    split; [heap_lookup|]. split; [apply lookup_ge_None; lia|].
    split; [reflexivity|]. split; [done|].
    by apply (data_sampling_rate sr I).
Qed.

End SamplingRate.

Lemma extractSamplingRate_first_witness :
  (exists st',
     extractSamplingRate 0 (push (ODataset no_listener true) (fresh_kernel ∅))
     = (Raise IndexError, st')
     /\ length (heap st') = 2)
  /\ (exists (l : loc) (a : ndarray float) (x : float) (st' : state float),
        extractSamplingRate 0 (push (ODataset two_listeners true) (fresh_kernel ∅))
        = (Ok l, st')
        /\ heap st' !! l = Some (ONdarray a)
        /\ heap (push (ODataset two_listeners true) (fresh_kernel ∅)) !! l = None
        /\ shape a = []
        /\ [1; 1]%float !! 0 = Some x
        /\ data a = [x]).
Proof.
  split.
  - apply (proj1 (extractSamplingRate_first
                    (push (ODataset no_listener true) (fresh_kernel ∅)) 0
                    no_listener (mk_ndarray [0] []) 0
                    eq_refl eq_refl eq_refl eq_refl)).
    reflexivity.
  - apply (proj2 (extractSamplingRate_first
                    (push (ODataset two_listeners true) (fresh_kernel ∅)) 0
                    two_listeners (mk_ndarray [2] [1; 1]%float) 2
                    eq_refl eq_refl eq_refl eq_refl)).
    lia.
Defined.

(** ** Receiver indices *)

Section ReceiverBounds.
Context {F : Type} `{Arith F}.


End ReceiverBounds.

